(** * Autonomous coding agents: a shallow embedding

    The development follows the Python sources:
    - [intelligent_fallback_generator.py]: [HealthMetrics], [FailureDetector],
      [PerformanceMonitor], [SwitchingEngine], [ConfigManager] and the
      start of [IntelligentFallbackGenerator.__init__];
    - [utils/log_analyzer.py]: [LogAnalyzer];
    - [unified_autonomous_generator.py]: the task analyzer, the feature list
      builder and the simulation path of the two adapters.

    Conventions.
    - A Python [float] is a binary64 value: Rocq's primitive [float].
      A Python [int] is a [Z]; [a / b] on two ints is the correctly rounded
      quotient and raises [OverflowError] when it leaves the range of
      doubles ([Py.true_div]).
    - A Python [str] is the [string] of its UTF-8 bytes.
    - A [dict] keyed by strings is a [gmap string _]; a literal dict whose
      order of keys matters is a list of pairs.
    - A raised exception is a [Raise] in [result].
    - Console output is left out; a logging call is kept where the
      evaluation of its argument can raise. *)

From Stdlib Require Import ZArith List String Ascii Floats Lia DecimalString.
From stdpp Require Import gmap strings.
Import ListNotations.

Set Warnings "-register-all,-inexact-float".

(* ================================================================== *)
(** * Exceptions *)

Inductive exn :=
  | KeyError (key : string)
  | TypeError
  | ValueError
  | ZeroDivisionError
  | OverflowError
  | TimeoutExpired
  | OSError.

Inductive result (A : Type) :=
  | Ok (a : A)
  | Raise (e : exn).
Arguments Ok {A} a.
Arguments Raise {A} e.

#[export] Instance result_ret : MRet result := fun A a => Ok a.

#[export] Instance result_bind : MBind result := fun A B k r =>
  match r with
  | Ok a => k a
  | Raise e => Raise e
  end.

(* ================================================================== *)
(** * Python numbers *)

Module Py.

(** An int as an exact binary floating-point number [n * 2^0]. *)
Definition int_to_SF (n : Z) : spec_float :=
  match n with
  | Z0 => S754_zero false
  | Zpos p => S754_finite false p 0
  | Zneg p => S754_finite true p 0
  end.

(** The quotient of two ints rounded once, to nearest even, as binary64;
    an infinity when the rounded quotient leaves the range of doubles. *)
Definition quotient (a b : Z) : spec_float :=
  SFdiv prec emax (int_to_SF a) (int_to_SF b).

(** [a / b] on two ints: [ZeroDivisionError] for a zero divisor,
    [OverflowError] ("integer division result too large for a float") when
    the rounded quotient is not a finite double. *)
Definition true_div (a b : Z) : result float :=
  if (b =? 0)%Z then Raise ZeroDivisionError
  else
    match quotient a b with
    | S754_infinity _ => Raise OverflowError
    | q => Ok (SF2Prim q)
    end.

(** The quotient as a double, for the inputs on which [a / b] returns. *)
Definition ratio (a b : Z) : float := SF2Prim (quotient a b).

(** [a / b] returns: the divisor is not zero and the rounded quotient is a
    finite double. *)
Definition fits (a b : Z) : bool :=
  negb (b =? 0)%Z
  && match quotient a b with
     | S754_infinity _ => false
     | _ => true
     end.

(** [max(0, x)]: the first argument is kept unless [x > 0] holds, so a
    NaN or a negative zero gives [0]. *)
Definition max0 (x : float) : float :=
  if (0 <? x)%float then x else 0%float.

(** [str(n)] for an int. *)
Definition str (n : Z) : string := NilZero.string_of_int (Z.to_int n).

(** Rounding [num / den] to an integer, ties to even ([0 <= num], [0 < den]). *)
Definition round_half_even (num den : Z) : Z :=
  let q := (num / den)%Z in
  let r := (num mod den)%Z in
  match (2 * r ?= den)%Z with
  | Lt => q
  | Gt => (q + 1)%Z
  | Eq => if Z.even q then q else (q + 1)%Z
  end.

Definition sign_str (s : bool) : string := if s then "-" else "".

Definition two_digits (n : Z) : string :=
  if (n <? 10)%Z then "0" +:+ str n else str n.

(** [f"{x:.2f}"]: the exact value of the double rounded to two decimals,
    ties to even. *)
Definition format_2f (x : float) : string :=
  match Prim2SF x with
  | S754_nan => "nan"
  | S754_infinity s => sign_str s +:+ "inf"
  | S754_zero s => sign_str s +:+ "0.00"
  | S754_finite s m e =>
      let h := match e with
               | Zneg p => round_half_even (Zpos m * 100) (2 ^ Zpos p)
               | _ => (Zpos m * 100 * 2 ^ e)%Z
               end in
      sign_str s +:+ str (h / 100) +:+ "." +:+ two_digits (h mod 100)
  end.

(** The exact value of a finite double as a fraction [(numerator, denominator)]. *)
Definition exact (x : float) : option (Z * Z) :=
  match Prim2SF x with
  | S754_zero _ => Some (0, 1)%Z
  | S754_finite s m e =>
      let n := if s then Zneg m else Zpos m in
      Some (match e with
            | Zneg p => (n, 2 ^ Zpos p)
            | _ => (n * 2 ^ e, 1)
            end)%Z
  | _ => None
  end.

(** [x < n] for a float and an int: the two values are compared exactly. *)
Definition float_lt_int (x : float) (n : Z) : bool :=
  match Prim2SF x with
  | S754_nan => false
  | S754_infinity s => s
  | _ =>
      match exact x with
      | Some (p, q) => (p <? n * q)%Z
      | None => false
      end
  end.

(** [len(l)] *)
Definition len {A} (l : list A) : Z := Z.of_nat (length l).

End Py.

(* ================================================================== *)
(** * Health metrics ([intelligent_fallback_generator.py]) *)

(** A [datetime] is a count of microseconds; a [timedelta] is their
    difference. *)
Definition datetime := Z.
Bind Scope Z_scope with datetime.

(** [timedelta.total_seconds()]: the microseconds divided by [10**6]. *)
Definition total_seconds (delta_us : Z) : result float :=
  Py.true_div delta_us (10 ^ 6).

Record HealthMetrics := {
  framework : string;
  timestamp : datetime;
  response_time : float;
  success_rate : float;
  error_count : Z;
  last_error : option string;
  consecutive_failures : Z;
  api_available : bool;
  tasks_completed : Z;
  total_tasks : Z
}.

(** [HealthMetrics.health_score]; the two divisions of an int raise
    [OverflowError] beyond the range of doubles. *)
Definition health_score (self : HealthMetrics) : result float :=
  if negb (api_available self) then Ok 0.0%float
  else
    let success_weight := 0.4%float in
    let response_weight := 0.3%float in
    let error_weight := 0.2%float in
    let consecutive_weight := 0.1%float in
    let success_score := success_rate self in
    let response_score := Py.max0 (1 - response_time self / 60)%float in
    error_ratio ← Py.true_div (error_count self) 10;
    let error_score := Py.max0 (1 - error_ratio)%float in
    consecutive_ratio ← Py.true_div (consecutive_failures self) 5;
    let consecutive_score := Py.max0 (1 - consecutive_ratio)%float in
    Ok (success_weight * success_score +
        response_weight * response_score +
        error_weight * error_score +
        consecutive_weight * consecutive_score)%float.

(** The equation of the specification, term by term, on doubles. *)
Definition health_score_spec (m : HealthMetrics) : float :=
  if api_available m then
    (0.4 * success_rate m
     + 0.3 * Py.max0 (1 - response_time m / 60)
     + 0.2 * Py.max0 (1 - Py.ratio (error_count m) 10)
     + 0.1 * Py.max0 (1 - Py.ratio (consecutive_failures m) 5))%float
  else 0%float.

(** The two quotients of [health_score] lie in the range of doubles. *)
Definition score_in_range (m : HealthMetrics) : bool :=
  Py.fits (error_count m) 10 && Py.fits (consecutive_failures m) 5.

Record SwitchingEvent := {
  ev_timestamp : datetime;
  from_framework : string;
  to_framework : string;
  ev_reason : string;
  trigger_metrics : HealthMetrics;
  ev_success : bool
}.

(* ================================================================== *)
(** * Failure detector: switch triggering *)

Record FailureDetector := {
  consecutive_failure_threshold : Z;
  error_rate_threshold : float
}.

(** [FailureDetector()] with the defaults of [__init__]. *)
Definition FailureDetector_default : FailureDetector :=
  {| consecutive_failure_threshold := 3; error_rate_threshold := 0.3 |}.

(** [FailureDetector.should_trigger_switch] *)
Definition should_trigger_switch (self : FailureDetector) (metrics : HealthMetrics)
  : result (bool * string) :=
  if negb (api_available metrics) then Ok (true, "API unavailable")
  else if (consecutive_failures metrics >=? consecutive_failure_threshold self)%Z then
    Ok (true, "Consecutive failures exceeded threshold ("
                +:+ Py.str (consecutive_failures metrics) +:+ ")")
  else
    error_rate_trigger ←
      (if (total_tasks metrics >? 5)%Z then
         error_rate ← Py.true_div (error_count metrics) (total_tasks metrics);
         if (error_rate_threshold self <? error_rate)%float then
           Ok (Some ("Error rate too high (" +:+ Py.format_2f error_rate +:+ ")"))
         else Ok None
       else Ok None);
    match error_rate_trigger with
    | Some reason => Ok (true, reason)
    | None =>
        score ← health_score metrics;
        if (score <? 0.3)%float then
          score ← health_score metrics;
          Ok (true, "Health score too low (" +:+ Py.format_2f score +:+ ")")
        else Ok (false, "")
    end.

(** The four conditions of the specification, in its order, each with its
    reason. *)
Definition trigger_conditions (d : FailureDetector) (m : HealthMetrics)
  : list (bool * string) :=
  [ (negb (api_available m), "API unavailable");
    ((consecutive_failure_threshold d <=? consecutive_failures m)%Z,
     "Consecutive failures exceeded threshold (" +:+ Py.str (consecutive_failures m) +:+ ")");
    ((5 <? total_tasks m)%Z
     && (error_rate_threshold d <? Py.ratio (error_count m) (total_tasks m))%float,
     "Error rate too high ("
       +:+ Py.format_2f (Py.ratio (error_count m) (total_tasks m)) +:+ ")");
    ((health_score_spec m <? 0.3)%float,
     "Health score too low (" +:+ Py.format_2f (health_score_spec m) +:+ ")") ].

(** The first condition that holds decides; none gives [(false, "")]. *)
Fixpoint first_holding (conds : list (bool * string)) : bool * string :=
  match conds with
  | [] => (false, "")
  | (c, reason) :: rest => if c then (true, reason) else first_holding rest
  end.

(** Every quotient that [should_trigger_switch] may compute lies in the
    range of doubles. *)
Definition trigger_in_range (m : HealthMetrics) : bool :=
  score_in_range m
  && ((total_tasks m <=? 5)%Z || Py.fits (error_count m) (total_tasks m)).

(** The metrics of the three switching tests. *)
Definition healthy_metrics (now : datetime) : HealthMetrics :=
  {| framework := "claude"; timestamp := now; response_time := 5.0;
     success_rate := 0.9; error_count := 0; last_error := None;
     consecutive_failures := 0; api_available := true;
     tasks_completed := 9; total_tasks := 10 |}.

Definition failing_metrics (now : datetime) : HealthMetrics :=
  {| framework := "claude"; timestamp := now; response_time := 30.0;
     success_rate := 0.0; error_count := 5; last_error := Some "API timeout";
     consecutive_failures := 3; api_available := true;
     tasks_completed := 0; total_tasks := 5 |}.

(** The representative point of the health score test. *)
Definition representative_metrics (now : datetime) : HealthMetrics :=
  {| framework := "claude"; timestamp := now; response_time := 10.0;
     success_rate := 0.8; error_count := 2; last_error := None;
     consecutive_failures := 0; api_available := true;
     tasks_completed := 8; total_tasks := 10 |}.

(** A point whose error count is beyond the range of doubles. *)
Definition overflowing_metrics (now : datetime) (total_tasks : Z) : HealthMetrics :=
  {| framework := "claude"; timestamp := now; response_time := 10.0;
     success_rate := 0.5; error_count := 10 ^ 400; last_error := None;
     consecutive_failures := 0; api_available := true;
     tasks_completed := 3; total_tasks := total_tasks |}.

(** [|x - n/d| <= 2^-52] for a finite double [x], on exact fractions. *)
Definition within_ulp_of (x : float) (n d : Z) : bool :=
  match Py.exact x with
  | Some (p, q) => (Z.abs (p * d - n * q) * 2 ^ 52 <=? q * d)%Z
  | None => false
  end.

(* ================================================================== *)
(** * Performance monitor *)

Record PerformanceMonitor := {
  window_size : Z;
  metrics_history : gmap string (list HealthMetrics)
}.

(** [PerformanceMonitor()]: a window of 20 and no history. *)
Definition PerformanceMonitor_new : PerformanceMonitor :=
  {| window_size := 20; metrics_history := ∅ |}.

(** Attribute assignments on a [HealthMetrics] object. *)
Definition set_success_rate (v : float) (m : HealthMetrics) : HealthMetrics :=
  {| framework := framework m; timestamp := timestamp m;
     response_time := response_time m; success_rate := v;
     error_count := error_count m; last_error := last_error m;
     consecutive_failures := consecutive_failures m;
     api_available := api_available m;
     tasks_completed := tasks_completed m; total_tasks := total_tasks m |}.

Definition set_error_count (v : Z) (m : HealthMetrics) : HealthMetrics :=
  {| framework := framework m; timestamp := timestamp m;
     response_time := response_time m; success_rate := success_rate m;
     error_count := v; last_error := last_error m;
     consecutive_failures := consecutive_failures m;
     api_available := api_available m;
     tasks_completed := tasks_completed m; total_tasks := total_tasks m |}.

Definition set_tasks_completed (v : Z) (m : HealthMetrics) : HealthMetrics :=
  {| framework := framework m; timestamp := timestamp m;
     response_time := response_time m; success_rate := success_rate m;
     error_count := error_count m; last_error := last_error m;
     consecutive_failures := consecutive_failures m;
     api_available := api_available m;
     tasks_completed := v; total_tasks := total_tasks m |}.

Definition set_total_tasks (v : Z) (m : HealthMetrics) : HealthMetrics :=
  {| framework := framework m; timestamp := timestamp m;
     response_time := response_time m; success_rate := success_rate m;
     error_count := error_count m; last_error := last_error m;
     consecutive_failures := consecutive_failures m;
     api_available := api_available m;
     tasks_completed := tasks_completed m; total_tasks := v |}.

(** [sum(1 for m in history if m.success_rate > 0)] *)
Definition count_successes (history : list HealthMetrics) : Z :=
  fold_left Z.add
    (map (fun m => if (0 <? success_rate m)%float then 1 else 0)%Z history) 0%Z.

(** [sum(m.error_count for m in history)] *)
Definition sum_error_count (history : list HealthMetrics) : Z :=
  fold_left Z.add (map error_count history) 0%Z.

(** The backward scan: entries are counted while their stored
    [success_rate] equals 0, and the first other entry stops the scan.
    The argument is [reversed(history)]. *)
Fixpoint count_while_failed (reversed_history : list HealthMetrics) : Z :=
  match reversed_history with
  | [] => 0
  | metrics :: rest =>
      if (success_rate metrics =? 0)%float
      then (1 + count_while_failed rest)%Z
      else 0%Z
  end.

(** The object appended last is shared between the list and the local
    variable [metrics]: an assignment to one of its attributes changes the
    last entry of the list. *)
Definition assign_last (f : HealthMetrics -> HealthMetrics)
  (history : list HealthMetrics) : list HealthMetrics :=
  match rev history with
  | [] => []
  | metrics :: before => rev before ++ [f metrics]
  end.

(** The four assignments of the rolling metrics, in the order of the
    source; each right-hand side reads the list as the previous assignments
    left it.  Were the division to raise, nothing would be assigned. *)
Definition assign_rolling (history : list HealthMetrics)
  : list HealthMetrics * result unit :=
  match Py.true_div (count_successes history) (Py.len history) with
  | Raise e => (history, Raise e)
  | Ok rate =>
      let history := assign_last (set_success_rate rate) history in
      let history := assign_last (set_error_count (sum_error_count history)) history in
      let history :=
        assign_last (set_tasks_completed (count_successes history)) history in
      (assign_last (set_total_tasks (Py.len history)) history, Ok tt)
  end.

(** Truth value of an [Optional[str]]. *)
Definition truthy (s : option string) : bool :=
  match s with
  | Some s => negb (String.eqb s "")
  | None => false
  end.

(** The body of [update_metrics] once [history] is bound to the list of
    the framework: the new point is computed from the list, appended, the
    window is trimmed, the point is given its rolling values and its health
    score is formatted for the debug message.  The result is the list as the
    call leaves it, also when it raises, and the returned object; [now] is
    the reading of [datetime.now()]. *)
Definition record_point (window_size : Z) (now : datetime)
  (framework : string) (response_time : float) (success : bool)
  (error : option string) (history : list HealthMetrics)
  : list HealthMetrics * result HealthMetrics :=
  let recent_tasks := Py.len history in
  let recent_successes := count_successes history in
  let recent_errors := sum_error_count history in
  let consecutive_failures := count_while_failed (rev history) in
  let consecutive_failures :=
    if negb success then (consecutive_failures + 1)%Z else consecutive_failures in
  let metrics :=
    {| framework := framework;
       timestamp := now;
       response_time := response_time;
       success_rate := if success then 1.0%float else 0.0%float;
       error_count := if truthy error then 1 else 0;
       last_error := error;
       consecutive_failures := consecutive_failures;
       api_available := true;
       tasks_completed := (recent_successes + (if success then 1 else 0))%Z;
       total_tasks := (recent_tasks + 1)%Z |} in
  let history := history ++ [metrics] in
  let history :=
    if (Py.len history >? window_size)%Z then tail history else history in
  let '(history, assigned) :=
    if (Py.len history >? 1)%Z then assign_rolling history else (history, Ok tt) in
  let metrics := List.last history metrics in
  (history,
   _ ← assigned;
   score ← health_score metrics;
   let message := "health=" +:+ Py.format_2f score in
   Ok metrics).

(** [PerformanceMonitor.update_metrics]: the list of the framework is
    looked up (an absent one is created empty), worked on in place and so
    stored under the same key.  The result is the monitor afterwards and the
    returned object, or the exception raised. *)
Definition update_metrics (self : PerformanceMonitor) (now : datetime)
  (framework : string) (response_time : float) (success : bool)
  (error : option string) : PerformanceMonitor * result HealthMetrics :=
  let history := default [] (metrics_history self !! framework) in
  let outcome :=
    record_point (window_size self) now framework response_time success error
      history in
  ({| window_size := window_size self;
      metrics_history := <[framework := fst outcome]> (metrics_history self) |},
   snd outcome).

(** [PerformanceMonitor.get_current_metrics] *)
Definition get_current_metrics (self : PerformanceMonitor) (framework : string)
  : option HealthMetrics :=
  match metrics_history self !! framework with
  | Some history => List.last (map Some history) None
  | None => None
  end.

(** Calls in a row on one monitor: the first exception ends the sequence. *)
Definition and_then {A B} (step : PerformanceMonitor * result A)
  (next : PerformanceMonitor -> A -> PerformanceMonitor * result B)
  : PerformanceMonitor * result B :=
  match step with
  | (self, Ok a) => next self a
  | (self, Raise e) => (self, Raise e)
  end.

(** Three calls in a row on the same framework, without the [error]
    argument; the three returned points are collected. *)
Definition three_updates (self : PerformanceMonitor) (f : string)
  (now1 now2 now3 : datetime) (t1 t2 t3 : float) (s1 s2 s3 : bool)
  : PerformanceMonitor * result (HealthMetrics * HealthMetrics * HealthMetrics) :=
  and_then (update_metrics self now1 f t1 s1 None) (fun self m1 =>
  and_then (update_metrics self now2 f t2 s2 None) (fun self m2 =>
  and_then (update_metrics self now3 f t3 s3 None) (fun self m3 =>
  (self, Ok (m1, m2, m3))))).

(* ================================================================== *)
(** * Switching engine *)

Record SwitchingEngine := {
  strategy : string;
  switching_history : list SwitchingEvent;
  hysteresis_time : Z
}.

(** [SwitchingEngine(strategy)] *)
Definition SwitchingEngine_new (strategy : string) : SwitchingEngine :=
  {| strategy := strategy; switching_history := []; hysteresis_time := 300 |}.

(** [self.switching_history[-1]], when the list is not empty. *)
Definition last_switch (self : SwitchingEngine) : option SwitchingEvent :=
  List.last (map Some (switching_history self)) None.

(** [(datetime.now() - last_switch.timestamp).total_seconds()] *)
Definition time_since_switch (now : datetime) (ev : SwitchingEvent) : result float :=
  total_seconds (now - ev_timestamp ev).

(** [SwitchingEngine.should_switch_framework]; [now] is the reading of
    [datetime.now()].  The result is
    [(should_switch, target_framework, reason)]. *)
Definition should_switch_framework (self : SwitchingEngine) (now : datetime)
  (current_framework : string) (current_metrics : HealthMetrics)
  (fallback_metrics : option HealthMetrics) (failure_detector : FailureDetector)
  : result (bool * string * string) :=
  recent ←
    match last_switch self with
    | Some ev =>
        seconds ← time_since_switch now ev;
        Ok (Py.float_lt_int seconds (hysteresis_time self))
    | None => Ok false
    end;
  if (recent : bool) then Ok (false, "", "Recent switch hysteresis")
  else
    '(should_switch, reason) ←
      should_trigger_switch failure_detector current_metrics;
    if negb should_switch then Ok (false, "", reason)
    else
      let target_framework :=
        if String.eqb current_framework "claude" then "opencode" else "claude" in
      match fallback_metrics with
      | Some fallback =>
          score ← health_score fallback;
          if (score <? 0.5)%float
          then Ok (false, "", "Target framework unhealthy")
          else Ok (true, target_framework, reason)
      | None => Ok (true, target_framework, reason)
      end.

(** [SwitchingEngine.record_switch] *)
Definition record_switch (self : SwitchingEngine) (now : datetime)
  (from_framework to_framework reason : string) (metrics : HealthMetrics)
  (success : bool) : SwitchingEngine :=
  let event :=
    {| ev_timestamp := now; from_framework := from_framework;
       to_framework := to_framework; ev_reason := reason;
       trigger_metrics := metrics; ev_success := success |} in
  let history := switching_history self ++ [event] in
  let history := if (Py.len history >? 50)%Z then tail history else history in
  {| strategy := strategy self; switching_history := history;
     hysteresis_time := hysteresis_time self |}.

(* ================================================================== *)
(** * Dicts in source order *)

(** [d.get(key)] on a dict kept as the list of its items. *)
Fixpoint dict_lookup {A} (d : list (string * A)) (key : string) : option A :=
  match d with
  | [] => None
  | (k, v) :: rest => if String.eqb k key then Some v else dict_lookup rest key
  end.

(** [d.get(key, default)] *)
Definition dict_get {A} (d : list (string * A)) (key : string) (default : A) : A :=
  match dict_lookup d key with
  | Some v => v
  | None => default
  end.

(** [key in d] *)
Definition dict_has {A} (d : list (string * A)) (key : string) : bool :=
  match dict_lookup d key with
  | Some _ => true
  | None => false
  end.

(** [d[key] = value]: an existing key keeps its place. *)
Fixpoint dict_set {A} (d : list (string * A)) (key : string) (value : A)
  : list (string * A) :=
  match d with
  | [] => [(key, value)]
  | (k, v) :: rest =>
      if String.eqb k key then (k, value) :: rest
      else (k, v) :: dict_set rest key value
  end.

(* ================================================================== *)
(** * Configuration manager *)

(** What [json.load] returns; an object keeps the order of its keys. *)
Inductive json :=
  | JNull
  | JBool (b : bool)
  | JInt (n : Z)
  | JFloat (x : float)
  | JStr (s : string)
  | JList (items : list json)
  | JDict (d : list (string * json)).

(** [d[key]] *)
Definition subscript (d : json) (key : string) : result json :=
  match d with
  | JDict d =>
      match dict_lookup d key with
      | Some v => Ok v
      | None => Raise (KeyError key)
      end
  | _ => Raise TypeError
  end.

(** The characters of a string: a byte of the form [10xxxxxx] continues
    the character before it. *)
Definition is_continuation (c : ascii) : bool :=
  let n := nat_of_ascii c in (128 <=? n)%nat && (n <? 192)%nat.

Fixpoint characters (s : string) : list string :=
  match s with
  | EmptyString => []
  | String c rest =>
      let chars := characters rest in
      match rest with
      | String c' _ =>
          if is_continuation c' then
            match chars with
            | first :: more => String c first :: more
            | [] => [ String c EmptyString ]
            end
          else String c EmptyString :: chars
      | EmptyString => String c EmptyString :: chars
      end
  end.

(** One element of the sequence given to [dict.update], read as a key and
    a value: it must be iterable ([TypeError]), of length 2 ([ValueError]),
    and its first item hashable ([TypeError]). *)
Definition key_value (item : json) : result (json * json) :=
  match item with
  | JList [ key; value ] =>
      match key with
      | JList _ | JDict _ => Raise TypeError
      | _ => Ok (key, value)
      end
  | JList _ => Raise ValueError
  | JStr s =>
      match characters s with
      | [ key; value ] => Ok (JStr key, JStr value)
      | _ => Raise ValueError
      end
  | JDict [ (key, _); (value, _) ] => Ok (JStr key, JStr value)
  | JDict _ => Raise ValueError
  | JNull | JBool _ | JInt _ | JFloat _ => Raise TypeError
  end.

(** The configuration is read through string keys only: an entry stored
    under another key is never seen again and is not kept. *)
Definition store (d : list (string * json)) (key value : json)
  : list (string * json) :=
  match key with
  | JStr k => dict_set d k value
  | _ => d
  end.

(** [d.update(items)] for a sequence of elements: the elements taken
    before one is refused stay in the dict. *)
Fixpoint update_from_sequence (d : list (string * json)) (items : list json)
  : list (string * json) * result unit :=
  match items with
  | [] => (d, Ok tt)
  | item :: rest =>
      match key_value item with
      | Ok (key, value) => update_from_sequence (store d key value) rest
      | Raise e => (d, Raise e)
      end
  end.

(** [d.update(other)] for whatever [json.load] returned: the dict
    afterwards and the outcome of the call. *)
Definition dict_update (d : list (string * json)) (other : json)
  : list (string * json) * result unit :=
  match other with
  | JDict items =>
      (fold_left (fun d item => dict_set d (fst item) (snd item)) items d, Ok tt)
  | JList items => update_from_sequence d items
  | JStr s => update_from_sequence d (map JStr (characters s))
  | JNull | JBool _ | JInt _ | JFloat _ => (d, Raise TypeError)
  end.

Definition default_fallback_system : list (string * json) :=
  [ ("enabled", JBool true);
    ("strategy", JStr "intelligent_primary_secondary");
    ("monitoring_interval", JInt 30);
    ("health_check_timeout", JInt 10);
    ("consecutive_failure_threshold", JInt 3);
    ("error_rate_threshold", JFloat 0.3);
    ("response_time_threshold", JFloat 30.0);
    ("hysteresis_time", JInt 300) ].

Definition default_config : list (string * json) :=
  [ ("fallback_system", JDict default_fallback_system);
    ("frameworks", JDict
       [ ("primary", JDict
            [ ("name", JStr "claude"); ("enabled", JBool true);
              ("priority", JInt 1); ("health_weight", JFloat 1.0) ]);
         ("secondary", JDict
            [ ("name", JStr "opencode"); ("enabled", JBool true);
              ("priority", JInt 2); ("health_weight", JFloat 0.9) ]) ]);
    ("task_routing", JDict
       [ ("simple_tasks", JStr "opencode");
         ("complex_tasks", JStr "claude");
         ("web_development", JStr "opencode");
         ("algorithm_implementation", JStr "claude") ]) ].

(** What is found at a path when the configuration is loaded: nothing, a
    file that cannot be opened or parsed ([open] or [json.load] raises), or
    a file holding a JSON value. *)
Inductive config_file :=
  | Absent
  | Unreadable
  | Holds (loaded_config : json).

(** [ConfigManager.load_config]; [fs] is the file system, read at
    [config_path].  An exception of [update] is caught like one of [open]
    or [json.load], and [default_config] is returned as it is by then. *)
Definition load_config (config_path : option string) (fs : string -> config_file)
  : list (string * json) :=
  match config_path with
  | Some path =>
      if negb (String.eqb path "") then
        match fs path with
        | Holds loaded_config => fst (dict_update default_config loaded_config)
        | Unreadable => default_config
        | Absent => default_config
        end
      else default_config
  | None => default_config
  end.

(** [ConfigManager.get_primary_framework] *)
Definition get_primary_framework (config : list (string * json)) : result json :=
  frameworks ← subscript (JDict config) "frameworks";
  primary ← subscript frameworks "primary";
  subscript primary "name".

(** [ConfigManager.get_secondary_framework] *)
Definition get_secondary_framework (config : list (string * json)) : result json :=
  frameworks ← subscript (JDict config) "frameworks";
  secondary ← subscript frameworks "secondary";
  subscript secondary "name".

(** [ConfigManager.get_fallback_settings] *)
Definition get_fallback_settings (config : list (string * json)) : result json :=
  subscript (JDict config) "fallback_system".

(** The components built first by [IntelligentFallbackGenerator.__init__],
    with the constructor arguments read from the settings. *)
Record Components := {
  detector_consecutive_failure_threshold : json;
  detector_error_rate_threshold : json;
  engine_strategy : json
}.

(** [IntelligentFallbackGenerator.__init__] up to the construction of the
    switching engine; the reads of [settings] happen in this order and no
    handler surrounds them. *)
Definition init_components (config_path : option string)
  (fs : string -> config_file) : result Components :=
  let config := load_config config_path fs in
  settings ← get_fallback_settings config;
  threshold ← subscript settings "consecutive_failure_threshold";
  rate ← subscript settings "error_rate_threshold";
  strategy ← subscript settings "strategy";
  Ok {| detector_consecutive_failure_threshold := threshold;
        detector_error_rate_threshold := rate;
        engine_strategy := strategy |}.

(** The three settings read by the constructor, in reading order. *)
Definition settings_read : list string :=
  [ "consecutive_failure_threshold"; "error_rate_threshold"; "strategy" ].

(* ================================================================== *)
(** * Text: case folding, substrings and the regular expressions in use *)

Module Text.

(** One ASCII character of [str.lower()]. *)
Definition lower_char (c : ascii) : ascii :=
  let n := nat_of_ascii c in
  if (65 <=? n)%nat && (n <=? 90)%nat then ascii_of_nat (n + 32) else c.

(** The UTF-8 bytes of four characters outside ASCII that meet ASCII
    letters when case is changed or ignored. *)
Definition KELVIN_SIGN : string := String "226" (String "132" (String "170" "")).
Definition CAPITAL_I_WITH_DOT : string := String "196" (String "176" "").
Definition DOTLESS_I : string := String "196" (String "177" "").
Definition LONG_S : string := String "197" (String "191" "").
Definition COMBINING_DOT_ABOVE : string := String "204" (String "135" "").

(** [s.lower()], as far as a test for an ASCII word can tell: the ASCII
    capitals are lowered, the Kelvin sign becomes [k] and the capital I
    with dot becomes [i] followed by a combining dot.  Any other
    character outside ASCII is kept as it is: its lower-case form has no
    ASCII character either, and the program only looks for ASCII words in
    the result. *)
Fixpoint lower (s : string) : string :=
  match s with
  | EmptyString => EmptyString
  | String "226" (String "132" (String "170" rest)) => String "k" (lower rest)
  | String "196" (String "176" rest) => String "i" (COMBINING_DOT_ABOVE +:+ lower rest)
  | String c rest => String (lower_char c) (lower rest)
  end.

(** [word in text] *)
Fixpoint contains (word text : string) : bool :=
  String.prefix word text
  || match text with
     | EmptyString => false
     | String _ rest => contains word rest
     end.

(** [any(word in text for word in words)] *)
Definition any_in (words : list string) (text : string) : bool :=
  existsb (fun word => contains word text) words.

(** Every pattern of the program is literal ASCII text joined by [.*]: a
    pattern is read as the list of its literal pieces. *)
Fixpoint pieces (pattern : string) : list string :=
  match pattern with
  | EmptyString => [EmptyString]
  | String "." (String "*" rest) => EmptyString :: pieces rest
  | String c rest =>
      match pieces rest with
      | piece :: more => String c piece :: more
      | [] => [String c EmptyString]
      end
  end.

(** The characters that would make a pattern more than literal text. *)
Definition is_special (c : ascii) : bool :=
  existsb (Ascii.eqb c)
    (list_ascii_of_string "\^$.|?*+()[]{}").

Fixpoint literal (piece : string) : bool :=
  match piece with
  | EmptyString => true
  | String c rest =>
      negb (is_special c) && (nat_of_ascii c <? 128)%nat && literal rest
  end.

(** The pattern lies in the fragment that [pieces] reads. *)
Definition in_fragment (pattern : string) : bool :=
  forallb literal (pieces pattern).

(** The text after a given prefix. *)
Fixpoint strip_prefix (prefix text : string) : option string :=
  match prefix, text with
  | EmptyString, _ => Some text
  | String a prefix', String b text' =>
      if Ascii.eqb a b then strip_prefix prefix' text' else None
  | String _ _, EmptyString => None
  end.

(** The characters outside ASCII that a letter of a pattern matches under
    [re.IGNORECASE]. *)
Definition also_matches (c : ascii) : list string :=
  if Ascii.eqb (lower_char c) "k" then [ KELVIN_SIGN ]
  else if Ascii.eqb (lower_char c) "i" then [ CAPITAL_I_WITH_DOT; DOTLESS_I ]
  else if Ascii.eqb (lower_char c) "s" then [ LONG_S ]
  else [].

(** One character of a pattern at the head of the text, case ignored; the
    text after it. *)
Definition strip_char (c : ascii) (text : string) : option string :=
  match text with
  | EmptyString => None
  | String b text' =>
      if Ascii.eqb (lower_char c) (lower_char b) then Some text'
      else
        List.fold_right
          (fun other found =>
             match strip_prefix other text with
             | Some rest => Some rest
             | None => found
             end)
          None (also_matches c)
  end.

(** A literal piece at the head of the text, case ignored; the text after
    it. *)
Fixpoint strip_literal (piece text : string) : option string :=
  match piece with
  | EmptyString => Some text
  | String c piece' =>
      match strip_char c text with
      | Some rest => strip_literal piece' rest
      | None => None
      end
  end.

(** [.*] followed by [k]: any run of characters other than the newline. *)
Fixpoint dot_star (k : string -> bool) (text : string) : bool :=
  k text
  || match text with
     | EmptyString => false
     | String c rest =>
         if Ascii.eqb c "010" then false else dot_star k rest
     end.

(** The pieces, joined by [.*], at the head of the text. *)
Fixpoint match_here (pieces : list string) (text : string) : bool :=
  match pieces with
  | [] => true
  | piece :: more =>
      match strip_literal piece text with
      | Some rest =>
          match more with
          | [] => true
          | _ :: _ => dot_star (match_here more) rest
          end
      | None => false
      end
  end.

(** A match starting anywhere in the text. *)
Fixpoint match_anywhere (pieces : list string) (text : string) : bool :=
  match_here pieces text
  || match text with
     | EmptyString => false
     | String _ rest => match_anywhere pieces rest
     end.

(** [re.search(pattern, content, re.IGNORECASE)] finds a match. *)
Definition re_search (pattern content : string) : bool :=
  match_anywhere (pieces pattern) content.

End Text.

(* ================================================================== *)
(** * Log analyzer ([utils/log_analyzer.py]) *)

Record LogAnalysisResult := {
  has_errors : bool;
  error_type : option string;
  error_patterns : list string;
  severity : string;
  confidence : float;
  suggestions : list string
}.

Definition CRITICAL_PATTERNS : list (string * list string) :=
  [ ("authentication",
     [ "API key.*invalid"; "authentication.*failed"; "unauthorized.*access";
       "invalid.*credentials"; "token.*expired" ]);
    ("rate_limiting",
     [ "rate limit.*exceeded"; "quota.*exceeded"; "throttled.*request";
       "too many.*requests"; "billing.*limit" ]);
    ("network",
     [ "connection.*timeout"; "network.*error"; "dns.*resolution.*failed";
       "connection.*refused"; "service.*unavailable" ]);
    ("resource",
     [ "memory.*error"; "out of.*memory"; "disk.*full";
       "resource.*exhausted"; "timeout.*exceeded" ]) ].

Definition FRAMEWORK_PATTERNS : list (string * list string) :=
  [ ("claude",
     [ "claude.*session.*failed"; "mcp.*server.*unavailable";
       "context.*window.*exceeded"; "claude.*sdk.*error";
       "anthropic.*api.*error" ]);
    ("opencode",
     [ "opencode.*session.*failed"; "provider.*unavailable";
       "model.*not.*supported"; "session.*timeout"; "opencode.*api.*error" ]) ].

Definition EXECUTION_PATTERNS : list (string * list string) :=
  [ ("import_errors",
     [ "module.*not.*found"; "import.*error"; "no module named";
       "cannot import.*name" ]);
    ("syntax_errors",
     [ "syntax.*error"; "invalid.*syntax"; "indentation.*error";
       "unexpected.*token" ]);
    ("runtime_errors",
     [ "runtime.*error"; "null.*pointer"; "segmentation.*fault";
       "stack.*overflow" ]) ].

(** [LogAnalyzer._check_patterns] *)
Definition _check_patterns (content : string) (patterns : list string)
  : list string :=
  List.filter (fun pattern => Text.re_search pattern content) patterns.

(** [LogAnalyzer._severity_weight] *)
Definition _severity_weight (severity : string) : Z :=
  dict_get [ ("low", 1); ("medium", 2); ("high", 3); ("critical", 4) ]%Z
    severity 0%Z.

(** [LogAnalyzer._get_suggestions] *)
Definition _get_suggestions (category : string) : list string :=
  dict_get
    [ ("authentication",
       [ "Check API key validity and expiration";
         "Verify environment variables are set correctly";
         "Rotate API key if compromised" ]);
      ("rate_limiting",
       [ "Implement exponential backoff";
         "Check API usage quotas";
         "Consider upgrading API plan" ]);
      ("network",
       [ "Check internet connectivity";
         "Verify firewall settings";
         "Try alternative network endpoint" ]);
      ("resource",
       [ "Monitor system resource usage";
         "Increase timeout values";
         "Check available disk space" ]) ]
    category [ "Review error logs for specific details" ].

(** [LogAnalyzer._get_framework_suggestions] *)
Definition _get_framework_suggestions (framework : string) : list string :=
  dict_get
    [ ("claude",
       [ "Check Claude SDK installation and version";
         "Verify MCP server configuration";
         "Review Claude API status page" ]);
      ("opencode",
       [ "Check OpenCode SDK installation";
         "Verify provider API keys";
         "Try alternative provider/model" ]) ]
    framework [ "Check framework documentation" ].

(** [LogAnalyzer._get_execution_suggestions] *)
Definition _get_execution_suggestions (category : string) : list string :=
  dict_get
    [ ("import_errors",
       [ "Check Python package installation";
         "Verify PYTHONPATH configuration";
         "Install missing dependencies" ]);
      ("syntax_errors",
       [ "Review generated code for syntax issues";
         "Check Python version compatibility";
         "Validate code formatting" ]);
      ("runtime_errors",
       [ "Check input data validity";
         "Review error stack trace";
         "Validate program logic" ]) ]
    category [ "Review execution environment" ].

(** The result object before any check. *)
Definition no_findings : LogAnalysisResult :=
  {| has_errors := false; error_type := None; error_patterns := [];
     severity := "low"; confidence := 0.0; suggestions := [] |}.

(** [bool(matches)] for a list *)
Definition nonempty {A} (l : list A) : bool :=
  match l with [] => false | _ :: _ => true end.

(** One turn of the loop over [CRITICAL_PATTERNS.items()]. *)
Definition critical_step (log_content : string) (result : LogAnalysisResult)
  (entry : string * list string) : LogAnalysisResult :=
  let '(category, patterns) := entry in
  let matches := _check_patterns log_content patterns in
  if nonempty matches then
    {| has_errors := true;
       error_type := Some category;
       error_patterns := error_patterns result ++ matches;
       severity := "critical";
       confidence := 0.9;
       suggestions := suggestions result ++ _get_suggestions category |}
  else result.

(** The check of the framework's own patterns. *)
Definition framework_step (log_content : string) (framework : option string)
  (result : LogAnalysisResult) : LogAnalysisResult :=
  match framework with
  | Some framework =>
      if negb (String.eqb framework "") && dict_has FRAMEWORK_PATTERNS framework then
        let matches :=
          _check_patterns log_content (dict_get FRAMEWORK_PATTERNS framework []) in
        if nonempty matches then
          {| has_errors := true;
             error_type :=
               if truthy (error_type result) then error_type result
               else Some (framework +:+ "_specific");
             error_patterns := error_patterns result ++ matches;
             severity :=
               if (_severity_weight "high" >? _severity_weight (severity result))%Z
               then "high" else severity result;
             confidence :=
               if (confidence result <? 0.8)%float then 0.8%float
               else confidence result;
             suggestions :=
               suggestions result ++ _get_framework_suggestions framework |}
        else result
      else result
  | None => result
  end.

(** The loop over [EXECUTION_PATTERNS.items()], left at the first category
    that matches. *)
Fixpoint execution_loop (log_content : string)
  (categories : list (string * list string)) (result : LogAnalysisResult)
  : LogAnalysisResult :=
  match categories with
  | [] => result
  | (category, patterns) :: rest =>
      let matches := _check_patterns log_content patterns in
      if nonempty matches then
        {| has_errors := true;
           error_type := Some category;
           error_patterns := error_patterns result ++ matches;
           severity := "medium";
           confidence := 0.7;
           suggestions := suggestions result ++ _get_execution_suggestions category |}
      else execution_loop log_content rest result
  end.

(** [LogAnalyzer.analyze_log_content] *)
Definition analyze_log_content (log_content : string) (framework : option string)
  : LogAnalysisResult :=
  let result := no_findings in
  let result := fold_left (critical_step log_content) CRITICAL_PATTERNS result in
  let result := framework_step log_content framework result in
  if negb (has_errors result)
  then execution_loop log_content EXECUTION_PATTERNS result
  else result.

(** The patterns of one critical category. *)
Definition critical_patterns_of (category : string) : list string :=
  dict_get CRITICAL_PATTERNS category [].

(** The text matches a pattern of the category. *)
Definition matches_category (log_content category : string) : bool :=
  nonempty (_check_patterns log_content (critical_patterns_of category)).

(** The text matches a pattern of some table of the analyzer. *)
Definition matches_any_pattern (log_content : string) : bool :=
  existsb (fun entry => nonempty (_check_patterns log_content (snd entry)))
    (CRITICAL_PATTERNS ++ FRAMEWORK_PATTERNS ++ EXECUTION_PATTERNS).

(** The flags that every matching critical category sets. *)
Definition flagged_critical (result : LogAnalysisResult) : Prop :=
  has_errors result = true
  /\ severity result = "critical"
  /\ confidence result = 0.9%float.

(* ================================================================== *)
(** * Task analyzer ([unified_autonomous_generator.py]) *)

Record TaskAnalysis := {
  language : string;
  complexity : string;
  features : list string;
  description : string;
  estimated_files : Z
}.

(** [BaseAutonomousGenerator._estimate_file_count] *)
Definition _estimate_file_count (complexity : string) (features : list string) : Z :=
  let base_count := [ ("simple", 1); ("cli", 2); ("library", 3); ("web", 5) ]%Z in
  (dict_get base_count complexity 1 + Py.len features)%Z.

(** [BaseAutonomousGenerator.parse_task_description] *)
Definition parse_task_description (task : string) : TaskAnalysis :=
  let task_lower := Text.lower task in
  let language :=
    if Text.any_in [ "javascript"; "js"; "node" ] task_lower then "javascript"
    else if Text.contains "java" task_lower
            && negb (Text.contains "javascript" task_lower) then "java"
    else if Text.any_in [ "python"; "py" ] task_lower then "python"
    else "python" in
  let complexity :=
    if Text.any_in [ "web"; "app"; "website"; "server"; "api" ] task_lower then "web"
    else if Text.any_in [ "cli"; "command"; "tool"; "utility" ] task_lower then "cli"
    else if Text.any_in [ "library"; "package"; "module" ] task_lower then "library"
    else "simple" in
  let features := [] in
  let features :=
    if Text.any_in [ "gui"; "interface"; "window" ] task_lower
    then features ++ [ "gui" ] else features in
  let features :=
    if Text.any_in [ "database"; "db"; "sql" ] task_lower
    then features ++ [ "database" ] else features in
  let features :=
    if Text.any_in [ "api"; "rest"; "endpoint" ] task_lower
    then features ++ [ "api" ] else features in
  let features :=
    if Text.contains "test" task_lower
    then features ++ [ "testing" ] else features in
  {| language := language;
     complexity := complexity;
     features := features;
     description := task;
     estimated_files := _estimate_file_count complexity features |}.

(** The complexity classes of the specification and its table of base
    counts. *)
Inductive Complexity := Simple | Cli | Library | Web.

Definition complexity_name (c : Complexity) : string :=
  match c with
  | Simple => "simple"
  | Cli => "cli"
  | Library => "library"
  | Web => "web"
  end.

Definition base_count (c : Complexity) : Z :=
  match c with
  | Simple => 1
  | Cli => 2
  | Library => 3
  | Web => 5
  end.

(* ================================================================== *)
(** * Feature list builder *)

Record FeatureRecord := {
  category : string;
  feature_description : string;
  steps : list string;
  passes : bool;
  priority : string
}.

(** [flag in feature_flags] *)
Definition has_flag (flag : string) (feature_flags : list string) : bool :=
  existsb (String.eqb flag) feature_flags.

(** [BaseAutonomousGenerator.create_comprehensive_feature_list] *)
Definition create_comprehensive_feature_list (task_analysis : TaskAnalysis)
  : list FeatureRecord :=
  let language := language task_analysis in
  let complexity := complexity task_analysis in
  let description := description task_analysis in
  let feature_flags := features task_analysis in
  let features := [] in
  let features :=
    if String.eqb complexity "simple" then
      features ++
      [ {| category := "core_functionality";
           feature_description := "Implement main program logic: " +:+ description;
           steps := [ "Create main " +:+ language +:+ " file";
                      "Implement core algorithm/logic";
                      "Handle input/output correctly";
                      "Verify expected behavior" ];
           passes := false;
           priority := "high" |} ]
    else if String.eqb complexity "cli" then
      features ++
      [ {| category := "cli_interface";
           feature_description := "Command-line interface with argument parsing";
           steps := [ "Implement argument parser";
                      "Add help documentation";
                      "Handle invalid inputs gracefully";
                      "Test various command combinations" ];
           passes := false;
           priority := "high" |};
        {| category := "core_functionality";
           feature_description := "Core program logic: " +:+ description;
           steps := [ "Implement main functionality";
                      "Process user inputs correctly";
                      "Generate expected outputs";
                      "Handle edge cases" ];
           passes := false;
           priority := "high" |} ]
    else if String.eqb complexity "web" then
      features ++
      [ {| category := "web_server";
           feature_description := "Basic web server setup and routing";
           steps := [ "Set up web framework";
                      "Configure basic routes";
                      "Handle HTTP requests/responses";
                      "Test server startup and endpoints" ];
           passes := false;
           priority := "high" |};
        {| category := "web_interface";
           feature_description := "User interface and frontend";
           steps := [ "Create HTML templates";
                      "Add CSS styling";
                      "Implement user interactions";
                      "Test UI functionality end-to-end" ];
           passes := false;
           priority := "medium" |} ]
    else features in
  let features :=
    features ++
    [ {| category := "code_quality";
         feature_description := "Code follows " +:+ language +:+ " best practices";
         steps := [ "Add proper documentation and docstrings";
                    "Implement clean code structure";
                    "Follow language conventions";
                    "Add meaningful comments" ];
         passes := false;
         priority := "medium" |};
      {| category := "testing";
         feature_description := "Comprehensive testing and validation";
         steps := [ "Test program execution without errors";
                    "Verify core functionality works";
                    "Test edge cases and error handling";
                    "Confirm output meets requirements" ];
         passes := false;
         priority := "high" |};
      {| category := "error_handling";
         feature_description := "Robust error handling and user feedback";
         steps := [ "Handle invalid inputs gracefully";
                    "Provide clear error messages";
                    "Prevent crashes from common errors";
                    "Test error scenarios" ];
         passes := false;
         priority := "medium" |} ] in
  let features :=
    if has_flag "gui" feature_flags then
      features ++
      [ {| category := "gui";
           feature_description := "Graphical user interface implementation";
           steps := [ "Set up GUI framework";
                      "Create main window and widgets";
                      "Implement user interactions";
                      "Test GUI functionality" ];
           passes := false;
           priority := "high" |} ]
    else features in
  let features :=
    if has_flag "database" feature_flags then
      features ++
      [ {| category := "database";
           feature_description := "Database integration and data persistence";
           steps := [ "Set up database connection";
                      "Define data models/schema";
                      "Implement CRUD operations";
                      "Test database functionality" ];
           passes := false;
           priority := "medium" |} ]
    else features in
  let features :=
    if has_flag "api" feature_flags then
      features ++
      [ {| category := "api";
           feature_description := "API endpoints and data handling";
           steps := [ "Define API routes and methods";
                      "Implement request/response handling";
                      "Add input validation";
                      "Test API endpoints" ];
           passes := false;
           priority := "high" |} ]
    else features in
  features.

(** [feature["passes"] = success if feature["priority"] == "high" else True] *)
Definition mark_feature (success : bool) (feature : FeatureRecord) : FeatureRecord :=
  {| category := category feature;
     feature_description := feature_description feature;
     steps := steps feature;
     passes := if String.eqb (priority feature) "high" then success else true;
     priority := priority feature |}.

(* ================================================================== *)
(** * Files and subprocesses *)

(** The text templates of the two adapters.  Their fixed wording is not
    reproduced: a written file is identified by its template and by the
    values of the variables that the template reads. *)
Inductive template :=
  | CLAUDE_README
  | CLAUDE_INIT_PYTHON
  | CLAUDE_INIT_OTHER
  | CLAUDE_PROGRESS
  | CLAUDE_HELLO_WORLD
  | CLAUDE_PYTHON_PROGRAM
  | CLAUDE_OTHER_PROGRAM
  | OPENCODE_README
  | OPENCODE_INIT_PYTHON
  | OPENCODE_INIT_OTHER
  | OPENCODE_PROGRESS
  | OPENCODE_HELLO_WORLD
  | OPENCODE_PYTHON_PROGRAM
  | OPENCODE_OTHER_PROGRAM.

Inductive content :=
  | Rendered (t : template) (values : list string) (clock : option datetime)
  | FeatureList (features : list FeatureRecord).

(** How a call of [subprocess.run] ends: the process completes, it
    exceeds the timeout, or it cannot be started. *)
Inductive run_outcome :=
  | Completed (returncode : Z) (stderr : string)
  | TimedOut
  | CannotStart.

Inductive event :=
  | Wrote (path : string) (c : content)
  | Chmod (path : string) (mode : Z)
  | Ran (argv : list string) (cwd : string).

(** What lies outside the program: the clock, the processes it starts and
    the refusals of the file system.  A process is given the files it
    finds; it is not followed into changes of its own to them. *)
Record Env := {
  now : datetime;
  spawn : list string -> string -> gmap string content -> run_outcome;
  write_refused : string -> bool;
  chmod_refused : string -> bool
}.

Record World := {
  files : gmap string content;
  events : list event
}.

(** A computation on the world that returns or raises. *)
Definition IO (A : Type) : Type := World -> result A * World.

#[export] Instance IO_ret : MRet IO := fun A a w => (Ok a, w).

#[export] Instance IO_bind : MBind IO := fun A B k m w =>
  match m w with
  | (Ok a, w') => k a w'
  | (Raise e, w') => (Raise e, w')
  end.

(** [try: body / except Exception: handler] *)
Definition try_except {A} (body : IO A) (handler : exn -> IO A) : IO A :=
  fun w =>
    match body w with
    | (Ok a, w') => (Ok a, w')
    | (Raise e, w') => handler e w'
    end.

(** [dir / name] *)
Definition path_join (dir name : string) : string := dir +:+ "/" +:+ name.

(** [path.name]: the text after the last [/]. *)
Fixpoint path_name (path : string) : string :=
  match path with
  | EmptyString => EmptyString
  | String c rest =>
      if Text.contains "/" rest then path_name rest
      else if Ascii.eqb c "/" then rest
      else path
  end.

(** [with open(path, "w") as f: f.write(...)] or [json.dump(..., f)] *)
Definition write_file (env : Env) (path : string) (c : content) : IO unit :=
  fun w =>
    if write_refused env path then (Raise OSError, w)
    else (Ok tt, {| files := <[path := c]> (files w);
                    events := events w ++ [Wrote path c] |}).

(** [os.chmod(path, mode)] *)
Definition chmod (env : Env) (path : string) (mode : Z) : IO unit :=
  fun w =>
    if chmod_refused env path then (Raise OSError, w)
    else (Ok tt, {| files := files w; events := events w ++ [Chmod path mode] |}).

(** [path.exists()] *)
Definition path_exists (path : string) : IO bool :=
  fun w => (Ok (bool_decide (is_Some (files w !! path))), w).

(** [subprocess.run(argv, cwd=cwd, capture_output=True, ...)]: the
    [CompletedProcess] as its return code and standard error. *)
Definition subprocess_run (env : Env) (argv : list string) (cwd : string)
  : IO (Z * string) :=
  fun w =>
    let w' := {| files := files w; events := events w ++ [Ran argv cwd] |} in
    match spawn env argv cwd (files w) with
    | Completed returncode stderr => (Ok (returncode, stderr), w')
    | TimedOut => (Raise TimeoutExpired, w')
    | CannotStart => (Raise OSError, w')
    end.

(* ================================================================== *)
(** * The Claude adapter: simulation path *)

(** [ClaudeAutonomousGenerator._create_program_claude] *)
Definition _create_program_claude (env : Env) (task_analysis : TaskAnalysis)
  (project_dir : string) : IO unit :=
  let description := description task_analysis in
  let language := language task_analysis in
  let content :=
    if String.eqb language "python" then
      if Text.contains "hello world" (Text.lower description)
      then Rendered CLAUDE_HELLO_WORLD [] None
      else Rendered CLAUDE_PYTHON_PROGRAM [ description ] None
    else Rendered CLAUDE_OTHER_PROGRAM [ description; language ] None in
  let main_file :=
    path_join (path_join project_dir "src")
      ("main." +:+ (if String.eqb language "python" then "py" else "txt")) in
  write_file env main_file content.

(** [ClaudeAutonomousGenerator._test_program_claude] *)
Definition _test_program_claude (env : Env) (task_analysis : TaskAnalysis)
  (project_dir : string) : IO bool :=
  let language := language task_analysis in
  try_except
    (if String.eqb language "python" then
       let main_file := path_join (path_join project_dir "src") "main.py" in
       found ← path_exists main_file;
       if (found : bool) then
         completed ← subprocess_run env [ "python3"; main_file ] project_dir;
         if (fst completed =? 0)%Z then mret true else mret false
       else mret true
     else mret true)
    (fun e => mret true).

(** [ClaudeAutonomousGenerator._simulate_claude_generation] *)
Definition _simulate_claude_generation (env : Env) (task_analysis : TaskAnalysis)
  (project_dir : string) : IO bool :=
  let language := language task_analysis in
  let description := description task_analysis in
  let complexity := complexity task_analysis in
  let readme_content :=
    Rendered CLAUDE_README
      [ path_name project_dir; description; language; complexity ] None in
  _ ← write_file env (path_join project_dir "README.md") readme_content;
  let init_script :=
    if String.eqb language "python" then Rendered CLAUDE_INIT_PYTHON [] None
    else Rendered CLAUDE_INIT_OTHER [ language; language ] None in
  _ ← write_file env (path_join project_dir "init.sh") init_script;
  _ ← chmod env (path_join project_dir "init.sh") 493;
  let progress_content :=
    Rendered CLAUDE_PROGRESS
      [ path_name project_dir; description; language ] (Some (now env)) in
  _ ← write_file env (path_join project_dir "claude-progress.txt") progress_content;
  _ ← subprocess_run env [ "git"; "init" ] project_dir;
  _ ← subprocess_run env [ "git"; "add"; "." ] project_dir;
  _ ← subprocess_run env
        [ "git"; "commit"; "-m"; "Initial setup by Claude SDK autonomous agent" ]
        project_dir;
  _ ← _create_program_claude env task_analysis project_dir;
  success ← _test_program_claude env task_analysis project_dir;
  let features :=
    map (mark_feature success) (create_comprehensive_feature_list task_analysis) in
  let feature_file := path_join project_dir "feature_list.json" in
  _ ← write_file env feature_file (FeatureList features);
  _ ← subprocess_run env [ "git"; "add"; "." ] project_dir;
  _ ← subprocess_run env
        [ "git"; "commit"; "-m"; "Implemented core functionality with Claude SDK" ]
        project_dir;
  mret success.

(* ================================================================== *)
(** * The OpenCode adapter: simulation path *)

Record OpenCodeAutonomousGenerator := {
  provider_id : string;
  model_id : string;
  opencode_enable_simulation : bool
}.

(** [OpenCodeAutonomousGenerator._create_program_opencode] *)
Definition _create_program_opencode (self : OpenCodeAutonomousGenerator)
  (env : Env) (task_analysis : TaskAnalysis) (project_dir : string) : IO unit :=
  let description := description task_analysis in
  let language := language task_analysis in
  let content :=
    if String.eqb language "python" then
      if Text.contains "hello world" (Text.lower description)
      then Rendered OPENCODE_HELLO_WORLD
             [ provider_id self; model_id self; provider_id self; model_id self ] None
      else Rendered OPENCODE_PYTHON_PROGRAM
             [ description; description; provider_id self; model_id self;
               description; provider_id self; model_id self ] None
    else Rendered OPENCODE_OTHER_PROGRAM
           [ description; provider_id self; language ] None in
  let main_file :=
    path_join (path_join project_dir "src")
      ("main." +:+ (if String.eqb language "python" then "py" else "txt")) in
  write_file env main_file content.

(** [OpenCodeAutonomousGenerator._test_program_opencode] *)
Definition _test_program_opencode (env : Env) (task_analysis : TaskAnalysis)
  (project_dir : string) : IO bool :=
  let language := language task_analysis in
  try_except
    (if String.eqb language "python" then
       let main_file := path_join (path_join project_dir "src") "main.py" in
       found ← path_exists main_file;
       if (found : bool) then
         completed ← subprocess_run env [ "python3"; main_file ] project_dir;
         if (fst completed =? 0)%Z then mret true else mret false
       else mret true
     else mret true)
    (fun e => mret true).

(** [OpenCodeAutonomousGenerator._simulate_opencode_generation] *)
Definition _simulate_opencode_generation (self : OpenCodeAutonomousGenerator)
  (env : Env) (task_analysis : TaskAnalysis) (project_dir : string) : IO bool :=
  let language := language task_analysis in
  let description := description task_analysis in
  let readme_content :=
    Rendered OPENCODE_README
      [ path_name project_dir; description; provider_id self; model_id self;
        language ] None in
  _ ← write_file env (path_join project_dir "README.md") readme_content;
  let init_script :=
    if String.eqb language "python"
    then Rendered OPENCODE_INIT_PYTHON [ provider_id self; model_id self ] None
    else Rendered OPENCODE_INIT_OTHER
           [ language; language; provider_id self; model_id self ] None in
  _ ← write_file env (path_join project_dir "init.sh") init_script;
  _ ← chmod env (path_join project_dir "init.sh") 493;
  let progress_content :=
    Rendered OPENCODE_PROGRESS
      [ path_name project_dir; description; language; provider_id self;
        model_id self ] (Some (now env)) in
  _ ← write_file env (path_join project_dir "claude-progress.txt") progress_content;
  _ ← subprocess_run env [ "git"; "init" ] project_dir;
  _ ← subprocess_run env [ "git"; "add"; "." ] project_dir;
  _ ← subprocess_run env
        [ "git"; "commit"; "-m";
          "Initial setup by OpenCode SDK (" +:+ provider_id self +:+ ")" ]
        project_dir;
  _ ← _create_program_opencode self env task_analysis project_dir;
  success ← _test_program_opencode env task_analysis project_dir;
  let features :=
    map (mark_feature success) (create_comprehensive_feature_list task_analysis) in
  let feature_file := path_join project_dir "feature_list.json" in
  _ ← write_file env feature_file (FeatureList features);
  _ ← subprocess_run env [ "git"; "add"; "." ] project_dir;
  _ ← subprocess_run env
        [ "git"; "commit"; "-m";
          "Implemented core functionality with OpenCode (" +:+ provider_id self +:+ ")" ]
        project_dir;
  mret success.

(** The paths of a project. *)
Definition main_py (project_dir : string) : string :=
  path_join (path_join project_dir "src") "main.py".

Definition feature_file (project_dir : string) : string :=
  path_join project_dir "feature_list.json".

(** The environment in which every write and every [git] command goes
    through. *)
Definition cooperative (env : Env) : Prop :=
  (forall path, write_refused env path = false)
  /\ (forall path, chmod_refused env path = false)
  /\ (forall argv cwd fs,
        head argv = Some "git" ->
        exists returncode stderr, spawn env argv cwd fs = Completed returncode stderr).

(** The number of writes of a path among events. *)
Definition writes_of (path : string) (evs : list event) : nat :=
  length (List.filter
            (fun ev => match ev with
                       | Wrote p _ => String.eqb p path
                       | _ => false
                       end) evs).

(** The commands that were run, in order. *)
Definition commands (evs : list event) : list (list string) :=
  flat_map (fun ev => match ev with Ran argv _ => [ argv ] | _ => [] end) evs.

(** The git commands of a simulation run before and after the program
    test. *)
Definition claude_setup_commands : list (list string) :=
  [ [ "git"; "init" ]; [ "git"; "add"; "." ];
    [ "git"; "commit"; "-m"; "Initial setup by Claude SDK autonomous agent" ] ].

Definition claude_final_commands : list (list string) :=
  [ [ "git"; "add"; "." ];
    [ "git"; "commit"; "-m"; "Implemented core functionality with Claude SDK" ] ].

Definition opencode_setup_commands (self : OpenCodeAutonomousGenerator)
  : list (list string) :=
  [ [ "git"; "init" ]; [ "git"; "add"; "." ];
    [ "git"; "commit"; "-m";
      "Initial setup by OpenCode SDK (" +:+ provider_id self +:+ ")" ] ].

Definition opencode_final_commands (self : OpenCodeAutonomousGenerator)
  : list (list string) :=
  [ [ "git"; "add"; "." ];
    [ "git"; "commit"; "-m";
      "Implemented core functionality with OpenCode (" +:+ provider_id self +:+ ")" ] ].

(** The ledger as a simulation run leaves it: every record of the feature
    list builder, marked with the verdict. *)
Definition marked_ledger (task_analysis : TaskAnalysis) (success : bool)
  : list FeatureRecord :=
  map (mark_feature success) (create_comprehensive_feature_list task_analysis).

(** A record carries the verdict when its priority is high and [true]
    when it is medium. *)
Definition marked_by_priority (success : bool) (feature : FeatureRecord) : Prop :=
  (priority feature = "high" -> passes feature = success)
  /\ (priority feature = "medium" -> passes feature = true).

(** What a run from [w] to [w'] that returned [success] has done to the
    ledger: [success] is a verdict of the program test, the ledger was
    written once, and the file holds the marked ledger. *)
Definition ledger_updated (test : IO bool) (task_analysis : TaskAnalysis)
  (project_dir : string) (w : World) (success : bool) (w' : World) : Prop :=
  (exists w1 w2, test w1 = (Ok success, w2))
  /\ files w' !! feature_file project_dir
     = Some (FeatureList (marked_ledger task_analysis success))
  /\ writes_of (feature_file project_dir) (events w')
     = S (writes_of (feature_file project_dir) (events w))
  /\ Forall (marked_by_priority success) (marked_ledger task_analysis success).

(* ================================================================== *)
(** * Theorems *)

(* ------------------------------------------------------------------ *)
(** ** Numbers *)

Example format_2f_examples :
  Py.format_2f 0.125 = "0.12" /\ Py.format_2f 0.375 = "0.38" /\
  Py.format_2f 12.5 = "12.50" /\ Py.format_2f (-0.001) = "-0.00" /\
  Py.format_2f 0.005 = "0.01" /\ Py.format_2f 1e22 = "10000000000000000000000.00".
Proof. vm_compute. repeat split. Qed.

Example true_div_examples :
  Py.true_div 1 3 = Ok (1 / 3)%float /\ Py.true_div 2 10 = Ok 0.2%float /\
  Py.true_div (-7) 2 = Ok (-3.5)%float /\ Py.true_div 0 (-5) = Ok (-0)%float /\
  Py.true_div 1 0 = Raise ZeroDivisionError /\
  Py.true_div (10 ^ 400) 6 = Raise OverflowError /\
  Py.true_div (2 ^ 1024 - 2 ^ 970 - 1) 1 = Ok 0x1.fffffffffffffp+1023%float /\
  Py.true_div (2 ^ 1024 - 2 ^ 970) 1 = Raise OverflowError /\
  Py.true_div (10 ^ 400) (10 ^ 399) = Ok 10%float.
Proof. vm_compute. repeat split. Qed.

Example float_lt_int_examples :
  Py.float_lt_int 0x1p+53 (2 ^ 53 + 1) = true /\
  Py.float_lt_int 299.999999 300 = true /\
  Py.float_lt_int 300 300 = false /\
  Py.float_lt_int nan 300 = false /\
  Py.float_lt_int neg_infinity 300 = true.
Proof. vm_compute. repeat split. Qed.

Lemma true_div_fits a b :
  Py.fits a b = true -> Py.true_div a b = Ok (Py.ratio a b).
Proof.
  unfold Py.fits, Py.true_div, Py.ratio. intros H.
  apply andb_prop in H as [Hb Hq].
  apply negb_true_iff in Hb. rewrite Hb.
  destruct (Py.quotient a b); try reflexivity; discriminate.
Qed.

Lemma true_div_overflow a b :
  b <> 0%Z -> Py.fits a b = false -> Py.true_div a b = Raise OverflowError.
Proof.
  unfold Py.fits, Py.true_div. intros Hb H.
  apply Z.eqb_neq in Hb. rewrite Hb in *. cbn [negb andb] in H.
  destruct (Py.quotient a b); try reflexivity; discriminate.
Qed.

(* ------------------------------------------------------------------ *)
(** ** Health score and switch triggering *)

Lemma health_score_in_range m :
  score_in_range m = true -> health_score m = Ok (health_score_spec m).
Proof.
  unfold score_in_range, health_score, health_score_spec. intros H.
  apply andb_prop in H as [He Hc].
  destruct (api_available m); cbn [negb]; [| reflexivity].
  rewrite (true_div_fits _ _ He). cbn [mbind result_bind].
  rewrite (true_div_fits _ _ Hc). reflexivity.
Qed.

Lemma health_score_out_of_range m :
  api_available m = true -> score_in_range m = false ->
  health_score m = Raise OverflowError.
Proof.
  unfold score_in_range, health_score. intros Hapi H. rewrite Hapi. cbn [negb].
  destruct (Py.fits (error_count m) 10) eqn:He.
  - rewrite (true_div_fits _ _ He). cbn [mbind result_bind andb] in *.
    rewrite (true_div_overflow (consecutive_failures m) 5 ltac:(lia) H). reflexivity.
  - rewrite (true_div_overflow (error_count m) 10 ltac:(lia) He). reflexivity.
Qed.

(** What [health_score] does on every point: it returns the value of the
    equation, or it raises [OverflowError], which it does exactly on the
    available points out of range. *)
Lemma health_score_cases m :
  match health_score m with
  | Ok score => score = health_score_spec m
  | Raise e =>
      e = OverflowError /\ api_available m = true /\ score_in_range m = false
  end.
Proof.
  destruct (score_in_range m) eqn:Hrange.
  - rewrite (health_score_in_range _ Hrange). reflexivity.
  - destruct (api_available m) eqn:Hapi.
    + rewrite (health_score_out_of_range _ Hapi Hrange). repeat split.
    + unfold health_score, health_score_spec. rewrite Hapi. reflexivity.
Qed.

Example healthy_no_switch now :
  should_trigger_switch FailureDetector_default (healthy_metrics now) = Ok (false, "").
Proof. vm_compute. reflexivity. Qed.

Example failing_switch now :
  should_trigger_switch FailureDetector_default (failing_metrics now)
  = Ok (true, "Consecutive failures exceeded threshold (3)").
Proof. vm_compute. reflexivity. Qed.

Lemma first_holding_cons c reason rest :
  first_holding ((c, reason) :: rest) = if c then (true, reason) else first_holding rest.
Proof. reflexivity. Qed.

(** What [should_trigger_switch] does on every point: it answers with
    the first condition that holds, or it raises [OverflowError], which it
    does only out of range. *)
Lemma should_trigger_switch_cases d m :
  match should_trigger_switch d m with
  | Ok answer => answer = first_holding (trigger_conditions d m)
  | Raise e => e = OverflowError /\ trigger_in_range m = false
  end.
Proof.
  unfold should_trigger_switch, trigger_conditions, trigger_in_range.
  rewrite !first_holding_cons.
  destruct (api_available m) eqn:Hapi; cbn [negb]; [| reflexivity].
  rewrite Z.geb_leb.
  destruct (consecutive_failure_threshold d <=? consecutive_failures m)%Z;
    [reflexivity |].
  rewrite Z.gtb_ltb.
  assert (Hscore :
    match (score ← health_score m;
           if (score <? 0.3)%float
           then score ← health_score m;
                Ok (true, "Health score too low (" +:+ Py.format_2f score +:+ ")")
           else Ok (false, "")) with
    | Ok answer =>
        answer = first_holding
                   [ ((health_score_spec m <? 0.3)%float,
                      "Health score too low ("
                        +:+ Py.format_2f (health_score_spec m) +:+ ")") ]
    | Raise e => e = OverflowError /\ score_in_range m = false
    end).
  { pose proof (health_score_cases m) as Hcases.
    destruct (health_score m) as [score | e]; cbn [mbind result_bind].
    - subst score. rewrite first_holding_cons.
      destruct (health_score_spec m <? 0.3)%float; reflexivity.
    - destruct Hcases as (-> & _ & Hrange). split; [reflexivity | exact Hrange]. }
  destruct (5 <? total_tasks m)%Z eqn:Htasks; cbn [andb mbind result_bind].
  - apply Z.ltb_lt in Htasks.
    destruct (Py.fits (error_count m) (total_tasks m)) eqn:Hfits.
    + rewrite (true_div_fits _ _ Hfits). cbn [mbind result_bind].
      destruct (error_rate_threshold d
                <? Py.ratio (error_count m) (total_tasks m))%float;
        cbn [mbind result_bind]; [reflexivity |].
      destruct (score ← health_score m; _) as [answer | e];
        [exact Hscore |].
      destruct Hscore as [-> Hrange]. rewrite Hrange. split; reflexivity.
    + rewrite (true_div_overflow (error_count m) (total_tasks m) ltac:(lia) Hfits). cbn [mbind result_bind].
      split; [reflexivity |].
      replace (total_tasks m <=? 5)%Z with false by (symmetry; apply Z.leb_gt; lia).
      apply andb_false_r.
  - destruct (score ← health_score m; _) as [answer | e];
      [exact Hscore |].
    destruct Hscore as [-> Hrange]. rewrite Hrange. split; reflexivity.
Qed.

(** The claim C1 as it stands fails where a count is beyond the range of
    doubles: the division of the error rate raises, and so does the one
    inside the health score when the error rate is not looked at. *)
Lemma C1_overflow_counterexample :
  should_trigger_switch FailureDetector_default (overflowing_metrics 0 6)
  = Raise OverflowError
  /\ should_trigger_switch FailureDetector_default (overflowing_metrics 0 2)
     = Raise OverflowError
  /\ ~ (forall d m, exists answer, should_trigger_switch d m = Ok answer).
Proof.
  assert (H : should_trigger_switch FailureDetector_default (overflowing_metrics 0 6)
              = Raise OverflowError) by (vm_compute; reflexivity).
  split; [exact H | split; [vm_compute; reflexivity |]].
  intros Hall.
  destruct (Hall FailureDetector_default (overflowing_metrics 0 6)) as [answer Hanswer].
  rewrite H in Hanswer. discriminate.
Qed.

(** C1 (amended). On every point whose quotients lie in the range of
    doubles, [should_trigger_switch] checks, in this order, API
    availability, the consecutive-failure threshold, the error rate (only
    above five tasks) and the health score, and answers with the reason of
    the first condition that holds, or [(false, "")] when none does; the
    default thresholds are 3 and 0.3; a point whose [api_available] is
    false gives [(true, "API unavailable")] whatever its other fields are.
    On any point at all, an answer that is returned is the one of the
    first condition that holds, and the only exception raised is
    [OverflowError], on a point out of range. *)
Theorem C1_should_trigger_switch_order :
  (forall d m,
     trigger_in_range m = true ->
     should_trigger_switch d m = Ok (first_holding (trigger_conditions d m)))
  /\ consecutive_failure_threshold FailureDetector_default = 3%Z
  /\ error_rate_threshold FailureDetector_default = 0.3%float
  /\ (forall d fw ts rt sr ec le cf tc tt,
        should_trigger_switch d
          {| framework := fw; timestamp := ts; response_time := rt;
             success_rate := sr; error_count := ec; last_error := le;
             consecutive_failures := cf; api_available := false;
             tasks_completed := tc; total_tasks := tt |}
        = Ok (true, "API unavailable"))
  /\ (forall d m answer,
        should_trigger_switch d m = Ok answer ->
        answer = first_holding (trigger_conditions d m))
  /\ (forall d m e,
        should_trigger_switch d m = Raise e ->
        e = OverflowError /\ trigger_in_range m = false).
Proof.
  split; [| split; [reflexivity | split; [reflexivity | split; [| split]]]];
    [| | intros d m answer H; pose proof (should_trigger_switch_cases d m) as Hcases;
         rewrite H in Hcases; exact Hcases
       | intros d m e H; pose proof (should_trigger_switch_cases d m) as Hcases;
         rewrite H in Hcases; exact Hcases ].
  - intros d m Hrange. unfold trigger_in_range in Hrange.
    apply andb_prop in Hrange as [Hscore Hrate].
    unfold should_trigger_switch, trigger_conditions.
    rewrite !first_holding_cons.
    destruct (negb (api_available m)); [reflexivity |].
    rewrite Z.geb_leb.
    destruct (consecutive_failure_threshold d <=? consecutive_failures m)%Z;
      [reflexivity |].
    rewrite Z.gtb_ltb, (health_score_in_range _ Hscore).
    destruct (5 <? total_tasks m)%Z eqn:Htasks; cbn [andb mbind result_bind].
    + assert (Hfits : Py.fits (error_count m) (total_tasks m) = true).
      { apply orb_prop in Hrate as [Hle | Hfits]; [| exact Hfits].
        apply Z.leb_le in Hle. apply Z.ltb_lt in Htasks. lia. }
      rewrite (true_div_fits _ _ Hfits). cbn [mbind result_bind].
      destruct (error_rate_threshold d
                <? Py.ratio (error_count m) (total_tasks m))%float;
        cbn [mbind result_bind]; [reflexivity |].
      destruct (health_score_spec m <? 0.3)%float; reflexivity.
    + destruct (health_score_spec m <? 0.3)%float; reflexivity.
  - intros. reflexivity.
Qed.

(** The three points of the switching tests are in range; the healthy one
    triggers nothing. *)
Lemma C1_should_trigger_switch_witness :
  should_trigger_switch FailureDetector_default (healthy_metrics 0)
  = Ok (first_holding (trigger_conditions FailureDetector_default (healthy_metrics 0))).
Proof.
  apply (proj1 C1_should_trigger_switch_order).
  vm_compute. reflexivity.
Defined.

(** The claim C3 as it stands fails where a count is beyond the range of
    doubles: the property raises instead of having a value. *)
Lemma C3_overflow_counterexample :
  health_score (overflowing_metrics 0 6) = Raise OverflowError
  /\ ~ (forall m, health_score m = Ok (health_score_spec m)).
Proof.
  assert (H : health_score (overflowing_metrics 0 6) = Raise OverflowError)
    by (vm_compute; reflexivity).
  split; [exact H |].
  intros Hall. rewrite (Hall (overflowing_metrics 0 6)) in H. discriminate.
Qed.

(** C3 (amended). The health score is 0 when the API is unavailable; when
    it is available and the quotients [error_count / 10] and
    [consecutive_failures / 5] lie in the range of doubles, it is the
    weighted sum of the specification; a score that is returned is always
    that sum, and the only exception raised is [OverflowError], on an
    available point out of range; at the representative point the score is
    the double next to 0.83 (within [2^-52] of it, printed "0.83" at two
    decimals), strictly above 0.5 and at most 1.0. *)
Theorem C3_health_score_equation :
  (forall m, score_in_range m = true -> health_score m = Ok (health_score_spec m))
  /\ (forall fw ts rt sr ec le cf tc tt,
        health_score
          {| framework := fw; timestamp := ts; response_time := rt;
             success_rate := sr; error_count := ec; last_error := le;
             consecutive_failures := cf; api_available := false;
             tasks_completed := tc; total_tasks := tt |} = Ok 0%float)
  /\ (forall now,
        exists score,
          health_score (representative_metrics now) = Ok score
          /\ within_ulp_of score 83 100 = true
          /\ Py.format_2f score = "0.83"
          /\ (0.5 <? score)%float = true
          /\ (score <=? 1.0)%float = true)
  /\ (forall m score, health_score m = Ok score -> score = health_score_spec m)
  /\ (forall m e,
        health_score m = Raise e ->
        e = OverflowError /\ api_available m = true /\ score_in_range m = false).
Proof.
  split; [| split; [| split; [| split]]].
  - exact health_score_in_range.
  - intros. reflexivity.
  - intros now. eexists. split; [vm_compute; reflexivity |].
    vm_compute. repeat split.
  - intros m score H. pose proof (health_score_cases m) as Hcases.
    rewrite H in Hcases. exact Hcases.
  - intros m e H. pose proof (health_score_cases m) as Hcases.
    rewrite H in Hcases. exact Hcases.
Qed.

(** The representative point is in range. *)
Lemma C3_health_score_witness :
  health_score (representative_metrics 0)
  = Ok (health_score_spec (representative_metrics 0)).
Proof.
  apply (proj1 C3_health_score_equation).
  vm_compute. reflexivity.
Defined.

(* ------------------------------------------------------------------ *)
(** ** Performance monitor *)

(** Evaluates the [record_point] of the goal whose list is known and looks
    the stored list up again. *)
Ltac run_record_point :=
  match goal with
  | |- context [record_point ?w ?n ?f ?t ?s ?e ?h] =>
      lazymatch h with context [metrics_history] => fail | _ => idtac end;
      lazymatch h with context [@lookup] => fail | _ => idtac end;
      let v := eval vm_compute in (record_point w n f t s e h) in
      change (record_point w n f t s e h) with v;
      cbn [fst snd metrics_history window_size and_then];
      rewrite ?lookup_insert_eq; cbn [default]
  end.


(* ------------------------------------------------------------------ *)
(** ** The rounding of a quotient *)

Section Rounding.
Local Open Scope Z_scope.

Lemma digits2_pos_bounds p :
  2 ^ (Zpos (digits2_pos p) - 1) <= Zpos p < 2 ^ Zpos (digits2_pos p).
Proof.
  induction p as [p IH | p IH |]; cbn [digits2_pos].
  - rewrite Pos2Z.inj_succ. change (Zpos p~1) with (2 * Zpos p + 1).
    replace (Z.succ (Zpos (digits2_pos p)) - 1) with (Z.succ (Zpos (digits2_pos p) - 1))
      by lia.
    rewrite !Z.pow_succ_r by lia. lia.
  - rewrite Pos2Z.inj_succ. change (Zpos p~0) with (2 * Zpos p).
    replace (Z.succ (Zpos (digits2_pos p)) - 1) with (Z.succ (Zpos (digits2_pos p) - 1))
      by lia.
    rewrite !Z.pow_succ_r by lia. lia.
  - cbn. lia.
Qed.

Lemma Zdigits2_unique q d :
  0 < q -> 2 ^ (d - 1) <= q < 2 ^ d -> Zdigits2 q = d.
Proof.
  intros Hq [Hlow Hhigh].
  destruct q as [| p | p]; try lia.
  cbn [Zdigits2].
  pose proof (digits2_pos_bounds p) as [Hlow' Hhigh'].
  assert (Hd : 0 < d).
  { destruct (Z.ltb_spec 0 d) as [? | Hle]; [assumption |].
    exfalso.
    assert (2 ^ d <= 1).
    { destruct (Z.eq_dec d 0) as [-> | ?]; [cbn; lia |].
      rewrite Z.pow_neg_r by lia. lia. }
    lia. }
  destruct (Z.lt_trichotomy (Zpos (digits2_pos p)) d) as [Hlt | [Heq | Hgt]];
    [| exact Heq |]; exfalso.
  - assert (2 ^ Zpos (digits2_pos p) <= 2 ^ (d - 1))
      by (apply Z.pow_le_mono_r; lia).
    lia.
  - assert (2 ^ d <= 2 ^ (Zpos (digits2_pos p) - 1))
      by (apply Z.pow_le_mono_r; lia).
    lia.
Qed.

Lemma loc_of_shr_record_of_loc m l :
  loc_of_shr_record (shr_record_of_loc m l) = l.
Proof. destruct l as [| []]; reflexivity. Qed.

Lemma shr_m_of_loc m l : shr_m (shr_record_of_loc m l) = m.
Proof. destruct l as [| []]; reflexivity. Qed.

Lemma round_nearest_even_bounds m l :
  m <= round_nearest_even m l <= m + 1.
Proof.
  unfold round_nearest_even.
  destruct l as [| []]; try lia.
  destruct (Z.even m); lia.
Qed.

Lemma shr_1_m mrs :
  0 < shr_m mrs -> shr_m (shr_1 mrs) = shr_m mrs / 2.
Proof.
  destruct mrs as [m r s]. cbn [shr_m]. intros Hm.
  destruct m as [| [p | p |] | p]; try lia; cbn [shr_1 shr_m].
  - change (Zpos p~1) with (2 * Zpos p + 1). apply Z.div_unique with (r := 1); lia.
  - change (Zpos p~0) with (2 * Zpos p). apply Z.div_unique with (r := 0); lia.
  - reflexivity.
Qed.

(** Rounding a mantissa of 53 digits that has no location: nothing moves. *)
Lemma shr_fexp_exact_53 m e :
  2 ^ 52 <= m < 2 ^ 53 -> -1074 <= e ->
  shr_fexp prec emax m e loc_Exact = ({| shr_m := m; shr_r := false; shr_s := false |}, e).
Proof.
  intros Hm He. unfold shr_fexp.
  rewrite (Zdigits2_unique m 53) by (cbn; lia).
  unfold fexp, emin, prec, emax.
  replace (Z.max (53 + e - 53) (3 - 1024 - 53) - e) with 0 by lia.
  reflexivity.
Qed.

Lemma round_53 s m e :
  2 ^ 52 <= m <= 2 ^ 53 -> -1074 <= e -> e + 1 <= 971 ->
  exists m' e',
    match shr_fexp prec emax m e loc_Exact with
    | (mrs, e'') =>
        match shr_m mrs with
        | Z0 => S754_zero s
        | Zpos m => if e'' <=? emax - prec then S754_finite s m e'' else S754_infinity s
        | _ => S754_nan
        end
    end = S754_finite s m' e'
    /\ valid_binary (S754_finite s m' e') = true
    /\ e <= e' <= e + 1
    /\ Zpos m' * 2 ^ (e' - e) = m.
Proof.
  intros Hm He Hmax.
  destruct (Z.eq_dec m (2 ^ 53)) as [-> | Hne].
  - exists (2 ^ 52)%positive, (e + 1).
    unfold shr_fexp.
    rewrite (Zdigits2_unique (2 ^ 53) 54) by (cbn; lia).
    unfold fexp, emin, prec, emax.
    replace (Z.max (54 + e - 53) (3 - 1024 - 53) - e) with 1 by lia.
    cbn [shr shr_record_of_loc SpecFloat.iter_pos].
    change (shr_m (shr_1 {| shr_m := 2 ^ 53; shr_r := false; shr_s := false |}))
      with (Zpos (2 ^ 52)).
    cbv iota beta.
    replace (e + 1 <=? 1024 - 53) with true by (symmetry; apply Z.leb_le; lia).
    split; [reflexivity |].
    split.
    { cbn [valid_binary]. unfold bounded, canonical_mantissa, fexp, emin.
      change (Zpos (digits2_pos (2 ^ 52))) with 53.
      apply andb_true_intro. split; [apply Z.eqb_eq | apply Z.leb_le]; unfold prec, emax; lia. }
    split; [lia |].
    replace (e + 1 - e) with 1 by lia. reflexivity.
  - rewrite shr_fexp_exact_53 by lia. cbn [shr_m].
    destruct m as [| p | p]; try (cbn in Hm; lia).
    exists p, e.
    replace (e <=? emax - prec) with true
      by (symmetry; apply Z.leb_le; unfold prec, emax; lia).
    split; [reflexivity |].
    split.
    { cbn [valid_binary]. unfold bounded, canonical_mantissa.
      change (Zpos (digits2_pos p)) with (Zdigits2 (Zpos p)).
      rewrite (Zdigits2_unique (Zpos p) 53) by (cbn; lia).
      unfold fexp, emin, prec, emax.
      apply andb_true_intro. split; [apply Z.eqb_eq | apply Z.leb_le]; lia. }
    split; [lia |].
    rewrite Z.sub_diag. lia.
Qed.

(** The rounding of a quotient of 53 or 54 digits: a valid double that
    exceeds it by at most two units of the quotient. *)
Lemma binary_round_aux_bound s q e l :
  2 ^ 52 <= q < 2 ^ 54 -> -1074 <= e -> e + 2 <= 971 ->
  exists m' e',
    binary_round_aux prec emax s q e l = S754_finite s m' e'
    /\ valid_binary (S754_finite s m' e') = true
    /\ e <= e' <= e + 2
    /\ Zpos m' * 2 ^ (e' - e) <= q + 2
    /\ forall b, 2 * b <= q -> 2 * b <= Zpos m' * 2 ^ (e' - e).
Proof.
  intros Hq He Hmax.
  unfold binary_round_aux.
  destruct (Z.ltb_spec q (2 ^ 53)) as [Hlt | Hge].
  - (* 53 digits: no shift *)
    unfold shr_fexp at 1.
    rewrite (Zdigits2_unique q 53) by (cbn; lia).
    unfold fexp at 1, emin, prec at 1 2, emax at 1.
    replace (Z.max (53 + e - 53) (3 - 1024 - 53) - e) with 0 by lia.
    cbn [shr]. rewrite loc_of_shr_record_of_loc, shr_m_of_loc.
    pose proof (round_nearest_even_bounds q l) as Hround.
    destruct (round_53 s (round_nearest_even q l) e) as (m' & e' & Heq & Hvalid & He' & Hval);
      [cbn in *; lia | lia | lia |].
    exists m', e'.
    split; [exact Heq |]. split; [exact Hvalid |]. split; [lia |].
    split; [lia |]. intros b Hb. lia.
  - (* 54 digits: one shift *)
    unfold shr_fexp at 1.
    rewrite (Zdigits2_unique q 54) by (cbn; lia).
    unfold fexp at 1, emin, prec at 1 2, emax at 1.
    replace (Z.max (54 + e - 53) (3 - 1024 - 53) - e) with 1 by lia.
    cbn [shr SpecFloat.iter_pos].
    set (mrs := shr_1 (shr_record_of_loc q l)).
    assert (Hm : shr_m mrs = q / 2).
    { unfold mrs. rewrite shr_1_m; rewrite shr_m_of_loc; [reflexivity | cbn in *; lia]. }
    rewrite Hm.
    pose proof (round_nearest_even_bounds (q / 2) (loc_of_shr_record mrs)) as Hround.
    assert (Hhalf : 2 ^ 52 <= q / 2 < 2 ^ 53).
    { split.
      - apply Z.div_le_lower_bound; cbn in *; lia.
      - apply Z.div_lt_upper_bound; cbn in *; lia. }
    assert (Hdouble : 2 * (q / 2) <= q)
      by (apply Z.mul_div_le; lia).
    destruct (round_53 s (round_nearest_even (q / 2) (loc_of_shr_record mrs)) (e + 1))
      as (m' & e' & Heq & Hvalid & He' & Hval); [cbn in *; lia | lia | lia |].
    exists m', e'.
    split; [exact Heq |]. split; [exact Hvalid |]. split; [lia |].
    replace (e' - e) with (Z.succ (e' - (e + 1))) by lia.
    rewrite Z.pow_succ_r by lia.
    split; [nia |].
    intros b Hb.
    assert (b <= q / 2) by (apply Z.div_le_lower_bound; lia).
    nia.
Qed.

Lemma Zdigits2_le a n :
  0 < a < 2 ^ n -> 0 <= n -> 1 <= Zdigits2 a <= n.
Proof.
  intros [Hpos Hlt] Hn.
  destruct a as [| p | p]; try lia. cbn [Zdigits2].
  pose proof (digits2_pos_bounds p) as [Hlow _].
  split; [lia |].
  destruct (Z.leb_spec (Zpos (digits2_pos p)) n) as [? | Hgt]; [assumption |].
  exfalso.
  assert (2 ^ n <= 2 ^ (Zpos (digits2_pos p) - 1)) by (apply Z.pow_le_mono_r; lia).
  lia.
Qed.

(** The quotient of a count of microseconds by [10^6], as
    [total_seconds] forms it: a valid double, below 300 exactly when the
    count is below 300 seconds. *)
Lemma quotient_microseconds a :
  0 < a < 2 ^ 63 ->
  exists m e,
    Py.quotient a (10 ^ 6) = S754_finite false m (Zneg e)
    /\ valid_binary (S754_finite false m (Zneg e)) = true
    /\ (a < 300 * 10 ^ 6 -> Zpos m < 300 * 2 ^ Zpos e)
    /\ (300 * 10 ^ 6 <= a -> 300 * 2 ^ Zpos e <= Zpos m).
Proof.
  intros Ha.
  assert (Hdigits : 1 <= Zdigits2 a <= 63) by (apply Zdigits2_le; lia).
  destruct a as [| p | p]; try lia.
  unfold Py.quotient. change (10 ^ 6) with 1000000. cbn [Py.int_to_SF SFdiv xorb].
  unfold SFdiv_core_binary.
  change (Zdigits2 1000000) with 20.
  set (d1 := Zdigits2 (Zpos p)) in *.
  assert (He : Z.min (fexp prec emax (d1 + 0 - (20 + 0))) (0 - 0) = d1 - 73)
    by (unfold fexp, emin, prec, emax; lia).
  rewrite He. clear He.
  replace (0 - 0 - (d1 - 73)) with (73 - d1) by lia.
  set (s := 73 - d1).
  assert (Hshift : match s with
                   | 0 => Zpos p
                   | Zpos _ => Z.shiftl (Zpos p) s
                   | Zneg _ => 0
                   end = Zpos p * 2 ^ s).
  { destruct s eqn:Hs; try lia. rewrite <- Hs. apply Z.shiftl_mul_pow2. lia. }
  rewrite Hshift. clear Hshift.
  pose proof (digits2_pos_bounds p) as [Hlow Hhigh].
  change (Zpos (digits2_pos p)) with d1 in Hlow, Hhigh.
  assert (Hpow : 2 ^ (d1 - 1) * 2 ^ s = 2 ^ 72).
  { rewrite <- Z.pow_add_r by lia. f_equal. lia. }
  assert (Hpow' : 2 ^ d1 * 2 ^ s = 2 ^ 73).
  { rewrite <- Z.pow_add_r by lia. f_equal. lia. }
  assert (Hs : 2 ^ 10 <= 2 ^ s) by (apply Z.pow_le_mono_r; lia).
  assert (Hs' : d1 <= 29 -> 2 ^ 44 <= 2 ^ s)
    by (intros ?; apply Z.pow_le_mono_r; lia).
  assert (Hd1 : Zpos p < 300 * 10 ^ 6 -> d1 <= 29).
  { intros Hlt. apply (Zdigits2_le (Zpos p) 29); lia. }
  set (scale := 2 ^ s) in *.
  assert (Hscale : 0 < scale) by lia.
  assert (Hnum : 2 ^ 72 <= Zpos p * scale < 2 ^ 73).
  { rewrite <- Hpow, <- Hpow'. split.
    - apply Z.mul_le_mono_nonneg_r; lia.
    - apply Z.mul_lt_mono_pos_r; lia. }
  pose proof (Z.div_eucl_eq (Zpos p * scale) 1000000 ltac:(lia)) as Heucl.
  pose proof (Z.mod_pos_bound (Zpos p * scale) 1000000 ltac:(lia)) as Hrem.
  unfold Z.modulo in Hrem.
  destruct (Z.div_eucl (Zpos p * scale) 1000000) as [q r].
  assert (Hq : 2 ^ 52 <= q < 2 ^ 54) by lia.
  destruct (binary_round_aux_bound false q (d1 - 73) (new_location 1000000 r) Hq)
    as (m & e & Heq & Hvalid & He & Hupper & Hlower); [lia | lia |].
  destruct e as [| e | e]; try lia.
  exists m, e.
  split; [exact Heq |]. split; [exact Hvalid |].
  assert (Hsplit : scale = 2 ^ Zpos e * 2 ^ (Zneg e - (d1 - 73))).
  { unfold scale. rewrite <- Z.pow_add_r by lia. f_equal. lia. }
  assert (Hk : 0 < 2 ^ (Zneg e - (d1 - 73))) by (apply Z.pow_pos_nonneg; lia).
  set (P := 2 ^ (Zneg e - (d1 - 73))) in *.
  set (T := 2 ^ Zpos e) in *.
  split.
  - intros Hlt. specialize (Hs' (Hd1 Hlt)).
    destruct (Z.ltb_spec (Zpos m) (300 * T)) as [? | Hge]; [assumption |].
    exfalso.
    assert (300 * scale <= Zpos m * P) by nia.
    nia.
  - intros Hge.
    assert (Hmul : 300 * 10 ^ 6 * scale <= Zpos p * scale)
      by (apply Z.mul_le_mono_nonneg_r; lia).
    assert (Hb : 2 * (150 * scale) <= q) by lia.
    specialize (Hlower _ Hb).
    nia.
Qed.

(** What [total_seconds] gives for a count of microseconds that is not
    negative: a double that is below 300 exactly when the count is below
    300 seconds. *)
Lemma total_seconds_threshold delta :
  0 <= delta < 2 ^ 63 ->
  exists seconds,
    total_seconds delta = Ok seconds
    /\ Py.float_lt_int seconds 300 = (delta <? 300 * 10 ^ 6).
Proof.
  intros Hdelta.
  destruct (Z.eq_dec delta 0) as [-> | Hne].
  { eexists. split; [vm_compute; reflexivity | vm_compute; reflexivity]. }
  destruct (quotient_microseconds delta) as (m & e & Heq & Hvalid & Hbelow & Habove);
    [lia |].
  unfold total_seconds, Py.true_div.
  change (10 ^ 6 =? 0) with false. cbv iota.
  rewrite Heq.
  eexists. split; [reflexivity |].
  unfold Py.float_lt_int, Py.exact.
  rewrite (Prim2SF_SF2Prim _ Hvalid).
  destruct (Z.ltb_spec delta (300 * 10 ^ 6)) as [Hlt | Hge].
  - apply Z.ltb_lt. apply Hbelow. exact Hlt.
  - apply Z.ltb_ge. apply Habove. exact Hge.
Qed.

End Rounding.

(* ------------------------------------------------------------------ *)
(** ** Switching engine *)

Lemma last_switch_app self earlier ev :
  switching_history self = earlier ++ [ev] -> last_switch self = Some ev.
Proof.
  intros H. unfold last_switch. rewrite H, map_app. cbn [map].
  apply last_last.
Qed.

(** A switch recorded at time 0 when the Claude backend was unavailable:
    asked again with the same metrics, the engine refuses up to 299.999999
    seconds later and approves from 300 seconds on; an engine without history
    approves at once. *)
Example hysteresis_boundary :
  let down := {| framework := "claude"; timestamp := 0; response_time := 1.0;
                 success_rate := 0.0; error_count := 1; last_error := None;
                 consecutive_failures := 1; api_available := false;
                 tasks_completed := 0; total_tasks := 1 |} in
  let engine :=
    record_switch (SwitchingEngine_new "intelligent_primary_secondary") 0
      "claude" "opencode" "API unavailable" down false in
  should_switch_framework engine 299999999%Z "claude" down None FailureDetector_default
    = Ok (false, "", "Recent switch hysteresis")
  /\ should_switch_framework engine 300000000%Z "claude" down None FailureDetector_default
    = Ok (true, "opencode", "API unavailable")
  /\ should_switch_framework (SwitchingEngine_new "intelligent_primary_secondary")
       1%Z "claude" down None FailureDetector_default
    = Ok (true, "opencode", "API unavailable").
Proof. vm_compute. repeat split. Qed.




(* ------------------------------------------------------------------ *)
(** ** Configuration manager *)

Lemma dict_lookup_set {A} (d : list (string * A)) key value k :
  dict_lookup (dict_set d key value) k
  = if String.eqb key k then Some value else dict_lookup d k.
Proof.
  induction d as [| [k0 v0] d IH]; cbn [dict_set dict_lookup].
  - reflexivity.
  - destruct (String.eqb_spec k0 key) as [-> | Hne]; cbn [dict_lookup].
    + destruct (String.eqb_spec key k); reflexivity.
    + rewrite IH. destruct (String.eqb_spec k0 k) as [-> | Hne'].
      * destruct (String.eqb_spec key k) as [-> | _]; [contradiction | reflexivity].
      * reflexivity.
Qed.

Lemma dict_lookup_absent {A} (d : list (string * A)) k :
  ~ In k (map fst d) -> dict_lookup d k = None.
Proof.
  induction d as [| [k0 v0] d IH]; cbn [dict_lookup map fst In]; [reflexivity |].
  intros Hnotin. destruct (String.eqb_spec k0 k) as [-> | _].
  - exfalso. apply Hnotin. left. reflexivity.
  - apply IH. intros Hin. apply Hnotin. right. exact Hin.
Qed.

(** [d.update(other)] for a dict: a key of [other] gets the value of
    [other], any other key keeps its value. *)
Lemma dict_lookup_update d other k :
  List.NoDup (map fst other) ->
  dict_lookup (fst (dict_update d (JDict other))) k
  = match dict_lookup other k with
    | Some v => Some v
    | None => dict_lookup d k
    end.
Proof.
  cbn [dict_update fst]. revert d.
  induction other as [| [k0 v0] other IH]; intros d Hnodup;
    cbn [fold_left dict_lookup fst snd]; [reflexivity |].
  cbn [map fst] in Hnodup. apply NoDup_cons_iff in Hnodup as [Hnotin Hnodup].
  rewrite (IH _ Hnodup), dict_lookup_set.
  destruct (String.eqb_spec k0 k) as [-> | _]; [| reflexivity].
  rewrite (dict_lookup_absent _ _ Hnotin). reflexivity.
Qed.

Lemma load_config_holds path fs loaded :
  path <> "" -> fs path = Holds loaded ->
  load_config (Some path) fs = fst (dict_update default_config loaded).
Proof.
  intros Hpath Hfs. unfold load_config.
  destruct (String.eqb_spec path ""); [contradiction |].
  cbn [negb]. rewrite Hfs. reflexivity.
Qed.

Example default_settings_complete :
  init_components None (fun _ => Absent)
  = Ok {| detector_consecutive_failure_threshold := JInt 3;
          detector_error_rate_threshold := JFloat 0.3;
          engine_strategy := JStr "intelligent_primary_secondary" |}.
Proof. vm_compute. reflexivity. Qed.



(* ------------------------------------------------------------------ *)
(** ** Text *)

Example patterns_in_fragment :
  forallb (fun entry => forallb Text.in_fragment (snd entry))
    (CRITICAL_PATTERNS ++ FRAMEWORK_PATTERNS ++ EXECUTION_PATTERNS) = true.
Proof. vm_compute. reflexivity. Qed.

Example re_search_examples :
  Text.re_search "API key.*invalid" "ERROR: API key is invalid or expired" = true
  /\ Text.re_search "API key.*invalid" "invalid API key" = false
  /\ Text.re_search "rate limit.*exceeded"
       "WARNING: Rate limit exceeded, please try again later" = true
  /\ Text.re_search "token.*expired" ("token" +:+ String "010" "expired") = false
  /\ Text.re_search "dns.*resolution.*failed" "DNS resolution has FAILED" = true
  /\ Text.re_search "API key.*invalid"
       ("api " +:+ Text.KELVIN_SIGN +:+ "ey " +:+ Text.DOTLESS_I +:+ "s invalid") = true
  /\ Text.re_search "session.*timeout"
       (Text.LONG_S +:+ "e" +:+ Text.LONG_S +:+ "sion t"
        +:+ Text.CAPITAL_I_WITH_DOT +:+ "meout") = true
  /\ Text.pieces "dns.*resolution.*failed" = [ "dns"; "resolution"; "failed" ].
Proof. vm_compute. repeat split. Qed.

Example lower_examples :
  Text.lower "Build a CLI Tool" = "build a cli tool"
  /\ Text.contains "cli" (Text.lower ("CL" +:+ Text.CAPITAL_I_WITH_DOT)) = true
  /\ Text.contains "package" (Text.lower ("PAC" +:+ Text.KELVIN_SIGN +:+ "AGE")) = true
  /\ Text.contains "cli" (Text.lower ("CL" +:+ Text.DOTLESS_I)) = false.
Proof. vm_compute. repeat split. Qed.

(* ------------------------------------------------------------------ *)
(** ** Task analyzer *)

Example parse_cli_database_api :
  parse_task_description "Build a CLI tool with a database and REST endpoints"
  = {| language := "python"; complexity := "cli";
       features := [ "database"; "api" ];
       description := "Build a CLI tool with a database and REST endpoints";
       estimated_files := 4 |}.
Proof. vm_compute. reflexivity. Qed.



(* ------------------------------------------------------------------ *)
(** ** Log analyzer *)

Example analyze_test_logs :
  analyze_log_content "ERROR: API key is invalid or expired" None
  = {| has_errors := true; error_type := Some "authentication";
       error_patterns := [ "API key.*invalid" ]; severity := "critical";
       confidence := 0.9;
       suggestions := [ "Check API key validity and expiration";
                        "Verify environment variables are set correctly";
                        "Rotate API key if compromised" ] |}
  /\ error_type
       (analyze_log_content "WARNING: Rate limit exceeded, please try again later" None)
     = Some "rate_limiting"
  /\ error_type
       (analyze_log_content "ERROR: Claude session failed to initialize" (Some "claude"))
     = Some "claude_specific"
  /\ error_type
       (analyze_log_content "ERROR: OpenCode session timeout occurred" (Some "opencode"))
     = Some "opencode_specific"
  /\ analyze_log_content
       ("INFO: Successfully generated code" +:+ String "010" "INFO: Task completed")
       None
     = no_findings.
Proof. vm_compute. repeat split. Qed.

Lemma critical_step_sets log_content result category patterns :
  nonempty (_check_patterns log_content patterns) = true ->
  flagged_critical (critical_step log_content result (category, patterns))
  /\ error_type (critical_step log_content result (category, patterns))
     = Some category.
Proof.
  intros Hmatch. unfold critical_step. rewrite Hmatch.
  repeat split.
Qed.

Lemma critical_step_skips log_content result category patterns :
  nonempty (_check_patterns log_content patterns) = false ->
  critical_step log_content result (category, patterns) = result.
Proof. intros Hmatch. unfold critical_step. rewrite Hmatch. reflexivity. Qed.

Lemma critical_step_keeps log_content result entry :
  flagged_critical result ->
  flagged_critical (critical_step log_content result entry).
Proof.
  intros Hflags. destruct entry as [category patterns].
  destruct (nonempty (_check_patterns log_content patterns)) eqn:Hmatch.
  - apply critical_step_sets. exact Hmatch.
  - rewrite critical_step_skips; assumption.
Qed.

Lemma critical_loop_keeps log_content categories result :
  flagged_critical result ->
  flagged_critical (fold_left (critical_step log_content) categories result).
Proof.
  revert result. induction categories as [| entry categories IH]; intros result H.
  - exact H.
  - cbn [fold_left]. apply IH, critical_step_keeps, H.
Qed.

Lemma critical_loop_skips log_content categories result :
  forallb (fun entry => negb (nonempty (_check_patterns log_content (snd entry))))
    categories = true ->
  fold_left (critical_step log_content) categories result = result.
Proof.
  revert result. induction categories as [| [category patterns] categories IH];
    intros result H; [reflexivity |].
  cbn [forallb snd] in H. apply andb_prop in H as [Hone Hrest].
  apply negb_true_iff in Hone.
  cbn [fold_left]. rewrite (critical_step_skips _ _ _ _ Hone). apply IH, Hrest.
Qed.

Lemma critical_patterns_first :
  CRITICAL_PATTERNS
  = ("authentication", critical_patterns_of "authentication") :: tail CRITICAL_PATTERNS.
Proof. reflexivity. Qed.

(** Replaces the patterns of a named category by their list. *)
Ltac list_patterns H :=
  unfold matches_category in H;
  match type of H with
  | context [critical_patterns_of ?category] =>
      let v := eval vm_compute in (critical_patterns_of category) in
      change (critical_patterns_of category) with v in H
  end.

(** The flags set by a match in the authentication category. *)
Lemma critical_flags log_content :
  matches_category log_content "authentication" = true ->
  flagged_critical (analyze_log_content log_content None).
Proof.
  intros Hauth. unfold analyze_log_content. cbv zeta. cbn [framework_step].
  assert (Hflags : flagged_critical
                     (fold_left (critical_step log_content) CRITICAL_PATTERNS
                        no_findings)).
  { rewrite critical_patterns_first. cbn [fold_left].
    apply critical_loop_keeps, critical_step_sets. exact Hauth. }
  destruct Hflags as (Herrors & Hrest).
  rewrite Herrors. cbn [negb]. split; [exact Herrors | exact Hrest].
Qed.

(** The category named by [error_type] is the last one that matches: a
    match in authentication alone names authentication. *)
Lemma critical_type_authentication log_content :
  matches_category log_content "authentication" = true ->
  matches_category log_content "rate_limiting" = false ->
  matches_category log_content "network" = false ->
  matches_category log_content "resource" = false ->
  error_type (analyze_log_content log_content None) = Some "authentication".
Proof.
  intros Hauth Hrate Hnet Hres.
  assert (Hloop : fold_left (critical_step log_content) CRITICAL_PATTERNS no_findings
                  = critical_step log_content no_findings
                      ("authentication", critical_patterns_of "authentication")).
  { rewrite critical_patterns_first at 1. cbn [fold_left].
    apply critical_loop_skips.
    list_patterns Hrate. list_patterns Hnet. list_patterns Hres.
    unfold CRITICAL_PATTERNS. cbn [tail forallb snd].
    rewrite Hrate, Hnet, Hres. reflexivity. }
  destruct (critical_step_sets log_content no_findings "authentication" _ Hauth)
    as ((Herrors & _) & Htype).
  unfold analyze_log_content. cbv zeta. cbn [framework_step].
  rewrite Hloop, Herrors. cbn [negb]. exact Htype.
Qed.

Lemma dict_get_cases {A} (d : list (string * A)) key default :
  dict_get d key default = default
  \/ exists k, In (k, dict_get d key default) d.
Proof.
  unfold dict_get.
  induction d as [| [k v] d IH]; [left; reflexivity |].
  cbn [dict_lookup]. destruct (String.eqb k key).
  - right. exists k. left. reflexivity.
  - destruct IH as [IH | [k' Hin]]; [left; exact IH |].
    right. exists k'. right. exact Hin.
Qed.

Lemma framework_step_no_match log_content framework result :
  (forall k patterns, In (k, patterns) FRAMEWORK_PATTERNS ->
     nonempty (_check_patterns log_content patterns) = false) ->
  framework_step log_content framework result = result.
Proof.
  intros Hnone. unfold framework_step.
  destruct framework as [framework |]; [| reflexivity].
  destruct (negb (framework =? "")%string && dict_has FRAMEWORK_PATTERNS framework);
    [| reflexivity].
  destruct (dict_get_cases FRAMEWORK_PATTERNS framework []) as [-> | [k Hin]].
  - reflexivity.
  - rewrite (Hnone _ _ Hin). reflexivity.
Qed.

Lemma no_pattern_no_findings log_content framework :
  matches_any_pattern log_content = false ->
  analyze_log_content log_content framework = no_findings.
Proof.
  intros Hnone. unfold matches_any_pattern in Hnone.
  rewrite !existsb_app in Hnone.
  apply orb_false_elim in Hnone as [Hcritical Hnone].
  apply orb_false_elim in Hnone as [Hframework Hexecution].
  unfold analyze_log_content. cbv zeta.
  assert (Hfold : fold_left (critical_step log_content) CRITICAL_PATTERNS no_findings
                  = no_findings).
  { unfold CRITICAL_PATTERNS in *. cbn [existsb snd] in Hcritical.
    repeat match type of Hcritical with
           | (_ || _) = false => apply orb_false_elim in Hcritical as [? Hcritical]
           end.
    cbn [fold_left critical_step].
    repeat match goal with
           | H : nonempty (_check_patterns log_content ?ps) = false |- _ =>
               rewrite H; clear H
           end.
    reflexivity. }
  rewrite Hfold, framework_step_no_match.
  - cbn [has_errors no_findings negb].
    unfold EXECUTION_PATTERNS in *. cbn [existsb snd] in Hexecution.
    repeat match type of Hexecution with
           | (_ || _) = false => apply orb_false_elim in Hexecution as [? Hexecution]
           end.
    cbn [execution_loop].
    repeat match goal with
           | H : nonempty (_check_patterns log_content ?ps) = false |- _ =>
               rewrite H; clear H
           end.
    reflexivity.
  - intros k patterns Hin.
    destruct (nonempty (_check_patterns log_content patterns)) eqn:E; [| reflexivity].
    assert (Hsome : existsb
                      (fun entry => nonempty (_check_patterns log_content (snd entry)))
                      FRAMEWORK_PATTERNS = true).
    { apply existsb_exists. exists (k, patterns). split; [exact Hin | exact E]. }
    congruence.
Qed.




(* ------------------------------------------------------------------ *)
(** ** Paths and events *)

Lemma append_assoc (a b c : string) : (a +:+ b) +:+ c = a +:+ (b +:+ c).
Proof.
  induction a as [| x a IH]; [reflexivity |].
  change (String x ((a +:+ b) +:+ c) = String x (a +:+ (b +:+ c))).
  f_equal. exact IH.
Qed.

Lemma eqb_append_prefix (d a b : string) :
  String.eqb (d +:+ a) (d +:+ b) = String.eqb a b.
Proof.
  induction d as [| x d IH]; [reflexivity |].
  change (String.eqb (String x (d +:+ a)) (String x (d +:+ b)) = String.eqb a b).
  cbn [String.eqb]. rewrite Ascii.eqb_refl. exact IH.
Qed.

Lemma path_join_nested d a b :
  path_join (path_join d a) b = d +:+ ("/" +:+ a +:+ "/" +:+ b).
Proof. unfold path_join. rewrite append_assoc. reflexivity. Qed.

Lemma writes_of_snoc path evs ev :
  writes_of path (evs ++ [ev])
  = (writes_of path evs
     + match ev with
       | Wrote p _ => if String.eqb p path then 1 else 0
       | _ => 0
       end)%nat.
Proof.
  unfold writes_of. rewrite List.filter_app, List.length_app. cbn [List.filter].
  destruct ev as [p c | p mode | argv cwd]; cbn [length]; try reflexivity.
  destruct (String.eqb p path); reflexivity.
Qed.

Lemma commands_snoc evs ev :
  commands (evs ++ [ev])
  = commands evs ++ match ev with Ran argv _ => [ argv ] | _ => [] end.
Proof.
  unfold commands. rewrite List.flat_map_app. cbn [flat_map].
  rewrite app_nil_r. reflexivity.
Qed.

(* ------------------------------------------------------------------ *)
(** ** The program test of the two adapters *)

(** What the program test does, case by case: it starts a process only
    for a Python task whose [src/main.py] exists, and answers [false] only
    when that process completes with a return code other than zero. *)
Lemma _test_program_claude_cases env task_analysis project_dir w :
  _test_program_claude env task_analysis project_dir w
  = if String.eqb (language task_analysis) "python"
       && bool_decide (is_Some (files w !! main_py project_dir))
    then
      let w' := {| files := files w;
                   events := events w
                             ++ [ Ran [ "python3"; main_py project_dir ] project_dir ] |} in
      match spawn env [ "python3"; main_py project_dir ] project_dir (files w) with
      | Completed returncode _ => (Ok (returncode =? 0)%Z, w')
      | TimedOut => (Ok true, w')
      | CannotStart => (Ok true, w')
      end
    else (Ok true, w).
Proof.
  unfold _test_program_claude, main_py.
  destruct (String.eqb (language task_analysis) "python"); cbn [andb]; [| reflexivity].
  cbv [try_except mbind IO_bind mret IO_ret path_exists].
  destruct (bool_decide _); [| reflexivity].
  cbv [subprocess_run].
  destruct (spawn env _ _ _) as [returncode stderr | |]; cbn [fst]; try reflexivity.
  destruct (returncode =? 0)%Z; reflexivity.
Qed.

Lemma _test_program_opencode_same env task_analysis project_dir w :
  _test_program_opencode env task_analysis project_dir w
  = _test_program_claude env task_analysis project_dir w.
Proof. reflexivity. Qed.


(* ------------------------------------------------------------------ *)
(** ** A simulation run *)

(** The program test leaves the files alone, writes nothing and runs at
    most the interpreter on [src/main.py]. *)
Lemma _test_program_claude_world env task_analysis project_dir w r w' :
  _test_program_claude env task_analysis project_dir w = (r, w') ->
  files w' = files w
  /\ (forall path, writes_of path (events w') = writes_of path (events w))
  /\ (commands (events w') = commands (events w)
      \/ commands (events w')
         = commands (events w) ++ [ [ "python3"; main_py project_dir ] ])
  /\ exists verdict, r = Ok verdict.
Proof.
  rewrite _test_program_claude_cases.
  destruct (_ && _).
  - cbv zeta.
    destruct (spawn env _ _ _); intros [= <- <-]; cbn [files events];
      (split; [reflexivity |]);
      (split; [intros path; rewrite writes_of_snoc, Nat.add_0_r; reflexivity |]);
      (split; [right; rewrite commands_snoc; reflexivity | eexists; reflexivity]).
  - intros [= <- <-].
    split; [reflexivity |].
    split; [reflexivity |].
    split; [left; reflexivity | eexists; reflexivity].
Qed.

(** One step of a run that is known to return: the next call of the file
    system or of [git] went through. *)
Ltac run_step H :=
  match type of H with
  | context [write_refused ?env ?path] =>
      destruct (write_refused env path) eqn:?; [discriminate H |]
  | context [chmod_refused ?env ?path] =>
      destruct (chmod_refused env path) eqn:?; [discriminate H |]
  | context [spawn ?env ?argv ?cwd ?fs] =>
      destruct (spawn env argv cwd fs) eqn:?; [| discriminate H | discriminate H]
  end;
  cbv beta iota in H; cbn [files events] in *.

Lemma mark_feature_by_priority success feature :
  marked_by_priority success (mark_feature success feature).
Proof.
  unfold marked_by_priority, mark_feature. cbn [priority passes].
  split; intros ->; reflexivity.
Qed.

Lemma marked_ledger_by_priority task_analysis success :
  Forall (marked_by_priority success) (marked_ledger task_analysis success).
Proof.
  unfold marked_ledger. apply Forall_map.
  induction (create_comprehensive_feature_list task_analysis); constructor;
    [apply mark_feature_by_priority | assumption].
Qed.

(** The end of the proofs about a run that returned: the program test
    [Htest] is put together with the steps around it. *)
Ltac finish_run w Htest :=
  destruct (_test_program_claude_world _ _ _ _ _ _ Htest)
    as (Hfiles & Hwrites & _ & _);
  split;
  [ split;
    [ eauto
    | cbn [files events];
      split; [apply lookup_insert_eq |];
      split; [| apply marked_ledger_by_priority];
      rewrite !writes_of_snoc, Hwrites; cbn [events];
      rewrite !writes_of_snoc;
      unfold feature_file; rewrite !path_join_nested; unfold path_join;
      rewrite !eqb_append_prefix;
      match goal with
      | |- context [writes_of ?p (events w)] => generalize (writes_of p (events w))
      end;
      intros n;
      match goal with
      | |- context [String.eqb (language ?t) "python"] =>
          destruct (String.eqb (language t) "python")
      end;
      repeat match goal with
             | |- context [String.eqb ?a ?b] =>
                 let v := eval vm_compute in (String.eqb a b) in
                 change (String.eqb a b) with v
             end;
      cbv iota; lia ]
  | do 2 eexists;
    split; [exact Htest |];
    cbn [files events]; rewrite !commands_snoc, !app_nil_r, <- !app_assoc;
    split; reflexivity ].

(** What a simulation run of the Claude adapter that returns has done. *)
Lemma _simulate_claude_generation_returns env task_analysis project_dir w success w' :
  _simulate_claude_generation env task_analysis project_dir w = (Ok success, w') ->
  ledger_updated (_test_program_claude env task_analysis project_dir)
    task_analysis project_dir w success w'
  /\ exists w1 w2,
       _test_program_claude env task_analysis project_dir w1 = (Ok success, w2)
       /\ commands (events w1) = commands (events w) ++ claude_setup_commands
       /\ commands (events w') = commands (events w2) ++ claude_final_commands.
Proof.
  intros H.
  cbv [_simulate_claude_generation _create_program_claude mbind IO_bind mret IO_ret
       write_file chmod subprocess_run] in H.
  do 8 run_step H.
  match type of H with
  | context [_test_program_claude env task_analysis project_dir ?w1] =>
      destruct (_test_program_claude env task_analysis project_dir w1)
        as [[verdict | e] w2] eqn:Htest; [| discriminate H]
  end.
  do 3 run_step H.
  injection H as <- <-.
  unfold ledger_updated.
  finish_run w Htest.
Qed.

(** The same for the OpenCode adapter. *)
Lemma _simulate_opencode_generation_returns self env task_analysis project_dir w
  success w' :
  _simulate_opencode_generation self env task_analysis project_dir w
  = (Ok success, w') ->
  ledger_updated (_test_program_opencode env task_analysis project_dir)
    task_analysis project_dir w success w'
  /\ exists w1 w2,
       _test_program_opencode env task_analysis project_dir w1 = (Ok success, w2)
       /\ commands (events w1) = commands (events w) ++ opencode_setup_commands self
       /\ commands (events w') = commands (events w2) ++ opencode_final_commands self.
Proof.
  intros H.
  cbv [_simulate_opencode_generation _create_program_opencode mbind IO_bind mret
       IO_ret write_file chmod subprocess_run] in H.
  do 8 run_step H.
  match type of H with
  | context [_test_program_opencode env task_analysis project_dir ?w1] =>
      destruct (_test_program_opencode env task_analysis project_dir w1)
        as [[verdict | e] w2] eqn:Htest; [| discriminate H]
  end.
  do 3 run_step H.
  injection H as <- <-.
  unfold ledger_updated.
  finish_run w Htest.
Qed.

(** One step of a run in a cooperative environment. *)
Ltac cooperative_step Hwrite Hchmod Hgit :=
  match goal with
  | |- context [write_refused ?env ?path] => rewrite (Hwrite path)
  | |- context [chmod_refused ?env ?path] => rewrite (Hchmod path)
  | |- context [spawn ?env ?argv ?cwd ?fs] =>
      destruct (Hgit argv cwd fs eq_refl) as (? & ? & ->)
  end;
  cbv beta iota; cbn [files events].

(** In a cooperative environment a simulation run of the Claude adapter
    returns. *)
Lemma _simulate_claude_generation_cooperative env task_analysis project_dir w :
  cooperative env ->
  exists success w',
    _simulate_claude_generation env task_analysis project_dir w = (Ok success, w').
Proof.
  intros (Hwrite & Hchmod & Hgit).
  cbv [_simulate_claude_generation _create_program_claude mbind IO_bind mret IO_ret
       write_file chmod subprocess_run].
  repeat cooperative_step Hwrite Hchmod Hgit.
  match goal with
  | |- context [_test_program_claude env task_analysis project_dir ?w1] =>
      destruct (_test_program_claude env task_analysis project_dir w1)
        as [r w2] eqn:Htest
  end.
  destruct (_test_program_claude_world _ _ _ _ _ _ Htest) as (_ & _ & _ & verdict & ->).
  repeat cooperative_step Hwrite Hchmod Hgit.
  eauto.
Qed.

Lemma _simulate_opencode_generation_cooperative self env task_analysis project_dir w :
  cooperative env ->
  exists success w',
    _simulate_opencode_generation self env task_analysis project_dir w
    = (Ok success, w').
Proof.
  intros (Hwrite & Hchmod & Hgit).
  cbv [_simulate_opencode_generation _create_program_opencode mbind IO_bind mret
       IO_ret write_file chmod subprocess_run].
  repeat cooperative_step Hwrite Hchmod Hgit.
  match goal with
  | |- context [_test_program_opencode env task_analysis project_dir ?w1] =>
      destruct (_test_program_opencode env task_analysis project_dir w1)
        as [r w2] eqn:Htest
  end.
  destruct (_test_program_claude_world _ _ _ _ _ _ Htest) as (_ & _ & _ & verdict & ->).
  repeat cooperative_step Hwrite Hchmod Hgit.
  eauto.
Qed.

(** The program test without a program to run: the answer is [true] and
    the world is as it was. *)
Lemma _test_program_claude_nothing_to_run env task_analysis project_dir w :
  language task_analysis <> "python" \/ files w !! main_py project_dir = None ->
  _test_program_claude env task_analysis project_dir w = (Ok true, w).
Proof.
  intros H. rewrite _test_program_claude_cases.
  destruct H as [H | H].
  - apply String.eqb_neq in H. rewrite H. reflexivity.
  - rewrite H, bool_decide_eq_false_2, andb_false_r; [reflexivity |].
    intros [c Hc]. discriminate Hc.
Qed.

(** The environment of the examples: every process completes with the
    return code [0]. *)
Example cooperative_example :
  cooperative {| now := 0;
                 spawn := fun _ _ _ => Completed 0 EmptyString;
                 write_refused := fun _ => false;
                 chmod_refused := fun _ => false |}.
Proof.
  split; [reflexivity |]. split; [reflexivity |].
  intros argv cwd fs _. cbn [spawn]. eauto.
Qed.

(* ------------------------------------------------------------------ *)
(** ** The ledger after a simulation run *)



(* ------------------------------------------------------------------ *)
(** ** Success without a run of the program *)


(* ------------------------------------------------------------------ *)
(** ** Further properties of the switching core *)




(* ------------------------------------------------------------------ *)
(** ** Further properties of the performance monitor *)

Lemma assign_last_length f history :
  length (assign_last f history) = length history.
Proof.
  unfold assign_last.
  rewrite <- (List.length_rev history).
  destruct (rev history) as [| metrics before]; [reflexivity |].
  rewrite List.length_app, List.length_rev. cbn [length]. lia.
Qed.

Lemma assign_rolling_length history :
  length (fst (assign_rolling history)) = length history.
Proof.
  unfold assign_rolling.
  destruct (Py.true_div _ _); cbn [fst]; [| reflexivity].
  rewrite !assign_last_length. reflexivity.
Qed.

Lemma record_point_length window_size now framework response_time success error
  history :
  (Py.len history <= window_size)%Z ->
  (Py.len (fst (record_point window_size now framework response_time success error
                  history))
   <= window_size)%Z.
Proof.
  intros Hlen. unfold record_point. cbv zeta.
  match goal with
  | |- context [history ++ [?m]] => set (metrics := m)
  end.
  set (trimmed := if (Py.len (history ++ [metrics]) >? window_size)%Z
                  then tail (history ++ [metrics]) else history ++ [metrics]).
  assert (Htrimmed : (Py.len trimmed <= window_size)%Z).
  { subst trimmed. unfold Py.len in *. rewrite List.length_app. cbn [length].
    destruct (Z.gtb_spec (Z.of_nat (length history + 1)) window_size) as [Hgt | Hle].
    - destruct history as [| first rest]; cbn [app tail length] in *;
        [lia | rewrite List.length_app; cbn [length]; lia].
    - rewrite List.length_app. cbn [length]. lia. }
  destruct (Py.len trimmed >? 1)%Z.
  - pose proof (assign_rolling_length trimmed) as Hrolling.
    destruct (assign_rolling trimmed) as [rolled assigned]. cbn [fst] in *.
    unfold Py.len in *. lia.
  - cbn [fst]. exact Htrimmed.
Qed.



(* ------------------------------------------------------------------ *)
(** ** Further properties of the configuration manager *)




(* ------------------------------------------------------------------ *)
(** ** Further properties of the log analyzer *)

Lemma framework_step_keeps log_content framework result :
  flagged_critical result ->
  flagged_critical (framework_step log_content framework result).
Proof.
  intros (Herrors & Hseverity & Hconfidence). unfold framework_step.
  destruct framework as [framework |]; [| repeat split; assumption].
  destruct (negb (framework =? "")%string && dict_has FRAMEWORK_PATTERNS framework);
    [| repeat split; assumption].
  destruct (nonempty _); [| repeat split; assumption].
  unfold flagged_critical. cbn [has_errors severity confidence].
  rewrite Hseverity, Hconfidence.
  repeat split.
Qed.



(* ------------------------------------------------------------------ *)
(** ** Further properties of the generators *)







